(** * citenet: the crawl engine of the citation network analyzer

    A shallow embedding of [src/citenet/citenet.py] (class [Citenet] and
    [DBConnection]) together with the properties of its specification.

    Conventions of the embedding:
    - Python strings are [string]; a character is an 8-bit code point.
      Positions are [Z], because the source uses [-1] as "not found" and
      relies on CPython's treatment of negative slice bounds.
    - a Python [dict] with string keys is a [gmap string string].
    - the [Citenet] object is a record threaded through every method;
      an uncaught Python exception is the [Raised] outcome.
    - the SQLite file is a record of tables with a committed copy and the
      working copy of the open connection.
    - widgets, status texts and the sleeping before a request are left out;
      they never feed back into the values modelled here. *)

From stdpp Require Import base strings gmap list pretty.
From Stdlib Require Import Ascii ZArith QArith Lia.

#[local] Open Scope string_scope.
#[local] Open Scope list_scope.
#[local] Open Scope Z_scope.

(** ** Python string primitives *)

Module Py.

Definition len (s : string) : Z := Z.of_nat (String.length s).

Fixpoint drop (n : nat) (s : string) : string :=
  match n, s with
  | S n', String _ s' => drop n' s'
  | _, _ => s
  end.

Fixpoint take (n : nat) (s : string) : string :=
  match n, s with
  | S n', String c s' => String c (take n' s')
  | _, _ => ""
  end.

(** A slice bound as CPython normalises it: a negative bound counts from
    the end, and every bound is clipped to [0 .. len s]. *)
Definition bound (s : string) (i : Z) : Z :=
  if i <? 0 then Z.max 0 (i + len s) else Z.min i (len s).

(** [s[a:b]] *)
Definition slice (s : string) (a b : Z) : string :=
  let a' := bound s a in
  let b' := bound s b in
  take (Z.to_nat (b' - a')) (drop (Z.to_nat a') s).

(** First position [>= i] at which [sub] starts, the argument [s] being
    the suffix that begins at position [i]; [-1] when there is none. *)
Fixpoint find_from (sub s : string) (i : Z) : Z :=
  if String.prefix sub s then i
  else match s with
       | "" => -1
       | String _ s' => find_from sub s' (i + 1)
       end.

(** [s.find(sub, start)] *)
Definition find (s sub : string) (start : Z) : Z :=
  let st := if start <? 0 then Z.max 0 (start + len s) else start in
  if len s <? st then -1
  else find_from sub (drop (Z.to_nat st) s) st.

(** [sub in s] *)
Definition contains (sub s : string) : bool :=
  negb (find s sub 0 =? -1).

(** The code points below 256 that [unicode.isspace] accepts. *)
Definition isspace (c : ascii) : bool :=
  let n := Z.of_nat (nat_of_ascii c) in
  ((9 <=? n) && (n <=? 13)) || ((28 <=? n) && (n <=? 32))
  || (n =? 133) || (n =? 160).

Fixpoint lstrip (s : string) : string :=
  match s with
  | String c s' => if isspace c then lstrip s' else s
  | "" => ""
  end.

Fixpoint rstrip (s : string) : string :=
  match s with
  | String c s' =>
      match rstrip s' with
      | "" => if isspace c then "" else String c ""
      | r => String c r
      end
  | "" => ""
  end.

(** [s.strip()] *)
Definition strip (s : string) : string := rstrip (lstrip s).

(** [s.replace(old, new)] for a non-empty [old]: occurrences are replaced
    from the left and do not overlap; [skip] counts the characters of an
    occurrence that are still to be passed over. *)
Fixpoint replace_from (old new s : string) (skip : nat) : string :=
  match s with
  | "" => ""
  | String c s' =>
      match skip with
      | S k => replace_from old new s' k
      | O =>
          if String.prefix old s
          then new +:+ replace_from old new s' (String.length old - 1)%nat
          else String c (replace_from old new s' O)
      end
  end.

Definition replace (s old new : string) : string :=
  replace_from old new s O.

(** The double quote, as a character and as a text. *)
Definition dquote : ascii := "034".
Definition dq : string := String dquote "".

(** [sep.join(l)] *)
Fixpoint join (sep : string) (l : list string) : string :=
  match l with
  | [] => ""
  | [x] => x
  | x :: l' => x +:+ sep +:+ join sep l'
  end.

End Py.

(** ** BibTeX records *)

Abbreviation dict := (gmap string string).

Section Bibtex.

(** The [while] loop of [findNextBracket], run over the suffix of [s]
    that starts at position [ind]. *)
Fixpoint scan_bracket (s : string) (ind nleft : Z) : Z :=
  match s with
  | "" => -1
  | String c s' =>
      let nleft :=
        if Ascii.eqb c "}"%char then nleft - 1
        else if Ascii.eqb c "{"%char then nleft + 1
        else nleft in
      if nleft =? 0 then ind else scan_bracket s' (ind + 1) nleft
  end.

(** [findNextBracket(s, ind)]; every call site passes [ind >= 0]. *)
Definition findNextBracket (s : string) (ind : Z) : Z :=
  scan_bracket (Py.drop (Z.to_nat ind) s) ind 1.

(** One pass through the body of the [while] loop of [bibtex2dic]:
    [None] when the body leaves the loop through a [break]. *)
Definition bibtex_body (t : string) (p : Z) (res : dict) : option (Z * dict) :=
  let oldP := p + 2 in
  let p := Py.find t "={" p in
  if p =? -1 then None
  else
    let k := Py.strip (Py.slice t oldP p) in
    let oldP := p + 2 in
    let p := findNextBracket t oldP in
    if p =? -1 then None
    else Some (p, <[k := Py.slice t oldP p]> res).

(** The loop itself; [None] means that the fuel ran out. *)
Fixpoint bibtex_loop (fuel : nat) (t : string) (p : Z) (res : dict) : option dict :=
  match fuel with
  | O => None
  | S fuel' =>
      if p <? Py.len t then
        match bibtex_body t p res with
        | None => Some res
        | Some (p', res') => bibtex_loop fuel' t p' res'
        end
      else Some res
  end.

Definition bibtex_head (t : string) : Z * dict :=
  let res : dict := ∅ in
  let p := Py.find t "{" 0 in
  let res := <["type" := Py.slice t 1 p]> res in
  let oldP := p in
  let p := Py.find t "," p in
  let res := <["bibtexkey" := Py.slice t (oldP + 1) p]> res in
  (p, res).

Definition bibtex2dic_fuel (fuel : nat) (t : string) : option dict :=
  let '(p, res) := bibtex_head t in
  bibtex_loop fuel t p res.

(** [bibtex2dic(t)]: the loop never needs more than [len t + 2] passes
    (lemma [bibtex2dic_fuel_enough]). *)
Definition bibtex2dic (t : string) : dict :=
  default ∅ (bibtex2dic_fuel (String.length t + 2)%nat t).

End Bibtex.

(** ** Numbers as text *)

Module Num.

Fixpoint int_digits (s : string) (acc : Z) : option Z :=
  match s with
  | "" => Some acc
  | String c s' =>
      let d := Z.of_nat (nat_of_ascii c) - 48 in
      if (0 <=? d) && (d <=? 9) then int_digits s' (10 * acc + d) else None
  end.

(** [int(s)] for a text: blanks around the number and a sign are
    accepted; [None] stands for [ValueError]. *)
Definition int (s : string) : option Z :=
  match Py.strip s with
  | "" => None
  | String "-" ("" as s') | String "+" ("" as s') => None
  | String "-" s' => Z.opp <$> int_digits s' 0
  | String "+" s' => int_digits s' 0
  | s' => int_digits s' 0
  end.

(** [str(n)] *)
Definition str (n : Z) : string := pretty n.

Fixpoint zeros (n : nat) : string :=
  match n with
  | O => ""
  | S n' => String "0" (zeros n')
  end.

(** ['%010d' % n] *)
Definition pad10 (n : Z) : string :=
  if n <? 0
  then "-" +:+ zeros (9 - String.length (str (- n))) +:+ str (- n)
  else zeros (10 - String.length (str n)) +:+ str n.

End Num.

(** ** The SQLite file *)

(** A row of [Publications]: the columns that were given a value, under
    the lower-case names the inserts use; an absent column is [NULL]. *)
Abbreviation row := (gmap string string).

Record tables := Tables {
  publications : list row;
  citationrelationship : list (string * string);
  header : list (string * string) }.

(** [file] is what is committed; [con] is the working copy of the open
    connection, [None] when there is none. *)
Record DBConnection := DB {
  file : tables;
  con : option tables }.

Module Sql.

(** The text that a quoted literal with body [s] denotes: a doubled
    quote character stands for one; a single one would end the literal
    before its end, and the statement would not parse ([None]). *)
Fixpoint unquote (q : ascii) (s : string) : option string :=
  match s with
  | "" => Some ""
  | String c s' =>
      if Ascii.eqb c q then
        match s' with
        | String c' s'' =>
            if Ascii.eqb c' q then String q <$> unquote q s'' else None
        | "" => None
        end
      else String c <$> unquote q s'
  end.

(** ['...'] and ["..."] literals *)
Definition text1 : string → option string := unquote "'".
Definition text2 : string → option string := unquote Py.dquote.

(** [primary key (BibtexKey, Title)] *)
Definition same_key (r1 r2 : row) : bool :=
  match r1 !! "bibtexkey", r1 !! "title", r2 !! "bibtexkey", r2 !! "title" with
  | Some b1, Some t1, Some b2, Some t2 => String.eqb b1 b2 && String.eqb t1 t2
  | _, _, _, _ => false
  end.

(** [column = value] for a text column *)
Definition col_is (c v : string) (r : row) : bool :=
  match r !! c with
  | Some x => String.eqb x v
  | None => false
  end.

(** The first row that satisfies [p]: what [fetchone] hands back. *)
Definition fetchone (p : row → bool) (t : list row) : option row :=
  head (filter (λ r, Is_true (p r)) t).

(** The row with the given [rowid]. Rows are never deleted, so the
    row ids are [1, 2, ...] in the order of insertion. *)
Definition by_rowid (n : Z) (t : list row) : option row :=
  if n <=? 0 then None else t !! Z.to_nat (n - 1).

(** [update header set value = v where key = k] *)
Definition update_header (k v : string) (h : list (string * string)) :=
  (λ kv : string * string, if String.eqb kv.1 k then (kv.1, v) else kv) <$> h.

End Sql.

(** ** The [Citenet] object *)

Inductive level := INFO | WARNING | ERROR.

(** Back-off: the class attributes and the single-shot [timer]; an active
    timer carries its interval in milliseconds. *)
Record Guard := MkGuard {
  TIMEOUT_CAPTCHA : Z;
  TIMEOUT_BLOCK : Z;
  ATTEMPTS : Z;
  FORCE_DELAY : bool;
  timer : option Q }.

(** The crawl cursor, kept in memory and mirrored in the [header] table. *)
Record CrawlState := MkCrawl {
  current_level : Z;
  current_row : Z;
  progress : Z;
  level_limit : Z;
  max_level : Z;
  scrape_done : bool }.

Record Sampling := MkSampling {
  use_percent : bool;
  ppl : Z;
  maxpl : Z }.

(** What [loadPapers] and the detail pages have gathered for one listing. *)
Record Listing := MkListing {
  lpPapers : list string;
  lpCites : list (string * string);
  lpRelated : list string }.

(** The fetch in flight; [loads] lists the urls handed to [vw.load],
    the latest first. *)
Record Fetch := MkFetch {
  ss : string;
  working : bool;
  was_paused : bool;
  last_url : string;
  error_timer : option Z;
  timeout_retry_timer : option Z;
  loads : list string }.

Record Citenet := MkCitenet {
  guard : Guard;
  crawl : CrawlState;
  sampling : Sampling;
  listing : Listing;
  fetch : Fetch;
  dbcon : DBConnection;
  total_records : Z;
  parent_bibtex : string;
  citeid : string;
  to_be_dumped : list dict;
  log : list (level * string) }.

Section Setters.

Definition set_ATTEMPTS (v : Z) (g : Guard) : Guard :=
  MkGuard (TIMEOUT_CAPTCHA g) (TIMEOUT_BLOCK g) v (FORCE_DELAY g) (timer g).
Definition set_timer (v : option Q) (g : Guard) : Guard :=
  MkGuard (TIMEOUT_CAPTCHA g) (TIMEOUT_BLOCK g) (ATTEMPTS g) (FORCE_DELAY g) v.

Definition set_current_level (v : Z) (c : CrawlState) : CrawlState :=
  MkCrawl v (current_row c) (progress c) (level_limit c) (max_level c) (scrape_done c).
Definition set_current_row (v : Z) (c : CrawlState) : CrawlState :=
  MkCrawl (current_level c) v (progress c) (level_limit c) (max_level c) (scrape_done c).
Definition set_progress (v : Z) (c : CrawlState) : CrawlState :=
  MkCrawl (current_level c) (current_row c) v (level_limit c) (max_level c) (scrape_done c).
Definition set_level_limit (v : Z) (c : CrawlState) : CrawlState :=
  MkCrawl (current_level c) (current_row c) (progress c) v (max_level c) (scrape_done c).
Definition set_scrape_done (v : bool) (c : CrawlState) : CrawlState :=
  MkCrawl (current_level c) (current_row c) (progress c) (level_limit c) (max_level c) v.

Definition set_ss (v : string) (f : Fetch) : Fetch :=
  MkFetch v (working f) (was_paused f) (last_url f) (error_timer f)
    (timeout_retry_timer f) (loads f).
Definition set_working (v : bool) (f : Fetch) : Fetch :=
  MkFetch (ss f) v (was_paused f) (last_url f) (error_timer f)
    (timeout_retry_timer f) (loads f).
Definition set_was_paused (v : bool) (f : Fetch) : Fetch :=
  MkFetch (ss f) (working f) v (last_url f) (error_timer f)
    (timeout_retry_timer f) (loads f).
Definition set_error_timer (v : option Z) (f : Fetch) : Fetch :=
  MkFetch (ss f) (working f) (was_paused f) (last_url f) v
    (timeout_retry_timer f) (loads f).
Definition set_timeout_retry_timer (v : option Z) (f : Fetch) : Fetch :=
  MkFetch (ss f) (working f) (was_paused f) (last_url f) (error_timer f) v (loads f).
(** [self.last_url = url; self.vw.load(url)] *)
Definition set_load (url : string) (f : Fetch) : Fetch :=
  MkFetch (ss f) (working f) (was_paused f) url (error_timer f)
    (timeout_retry_timer f) (url :: loads f).

Definition on_guard (f : Guard → Guard) (s : Citenet) : Citenet :=
  MkCitenet (f (guard s)) (crawl s) (sampling s) (listing s) (fetch s) (dbcon s)
    (total_records s) (parent_bibtex s) (citeid s) (to_be_dumped s) (log s).
Definition on_crawl (f : CrawlState → CrawlState) (s : Citenet) : Citenet :=
  MkCitenet (guard s) (f (crawl s)) (sampling s) (listing s) (fetch s) (dbcon s)
    (total_records s) (parent_bibtex s) (citeid s) (to_be_dumped s) (log s).
Definition on_fetch (f : Fetch → Fetch) (s : Citenet) : Citenet :=
  MkCitenet (guard s) (crawl s) (sampling s) (listing s) (f (fetch s)) (dbcon s)
    (total_records s) (parent_bibtex s) (citeid s) (to_be_dumped s) (log s).
Definition set_dbcon (v : DBConnection) (s : Citenet) : Citenet :=
  MkCitenet (guard s) (crawl s) (sampling s) (listing s) (fetch s) v
    (total_records s) (parent_bibtex s) (citeid s) (to_be_dumped s) (log s).
Definition set_total_records (v : Z) (s : Citenet) : Citenet :=
  MkCitenet (guard s) (crawl s) (sampling s) (listing s) (fetch s) (dbcon s)
    v (parent_bibtex s) (citeid s) (to_be_dumped s) (log s).
Definition set_parent (cid pb : string) (s : Citenet) : Citenet :=
  MkCitenet (guard s) (crawl s) (sampling s) (listing s) (fetch s) (dbcon s)
    (total_records s) pb cid (to_be_dumped s) (log s).
Definition set_to_be_dumped (v : list dict) (s : Citenet) : Citenet :=
  MkCitenet (guard s) (crawl s) (sampling s) (listing s) (fetch s) (dbcon s)
    (total_records s) (parent_bibtex s) (citeid s) v (log s).
(** [logger.info], [logger.warning], [logger.error]; the latest entry
    comes first. Texts that embed a time stamp or an exception are cut
    down to their fixed part. *)
Definition logger (l : level) (msg : string) (s : Citenet) : Citenet :=
  MkCitenet (guard s) (crawl s) (sampling s) (listing s) (fetch s) (dbcon s)
    (total_records s) (parent_bibtex s) (citeid s) (to_be_dumped s)
    ((l, msg) :: log s).

End Setters.

(** ** [DBConnection] *)

Module Con.

(** [open]: a new connection sees what is committed. *)
Definition open (d : DBConnection) : DBConnection :=
  DB (file d) (Some (file d)).

(** [close]: what the connection had not committed is lost. *)
Definition close (d : DBConnection) : DBConnection :=
  DB (file d) None.

Definition commit (d : DBConnection) : DBConnection :=
  match con d with
  | Some t => DB t (Some t)
  | None => d
  end.

Definition rollback (d : DBConnection) : DBConnection :=
  match con d with
  | Some _ => DB (file d) (Some (file d))
  | None => d
  end.

(** The tables as the connection sees them. *)
Definition view (d : DBConnection) : tables :=
  default (file d) (con d).

(** A statement that changes the working copy. *)
Definition execute (f : tables → tables) (d : DBConnection) : DBConnection :=
  DB (file d) (f <$> con d).

End Con.

(** [get_cursor]: a closed connection is opened, with a warning. *)
Definition get_cursor (s : Citenet) : Citenet :=
  match con (dbcon s) with
  | Some _ => s
  | None =>
      set_dbcon (Con.open (dbcon s))
        (logger WARNING "Attempting to get cursor, but DB closed" s)
  end.

(** ** Exceptions *)

Inductive exn :=
  KeyError | TypeError | ValueError | IndexError | UnicodeEncodeError | SystemExit.

Inductive outcome (A : Type) :=
  | Returned (a : A)
  | Raised (e : exn).
Arguments Returned {A} a.
Arguments Raised {A} e.

(** A method: its outcome and the object as the call leaves it. An
    exception leaves the object as it was when the exception was raised. *)
Definition method (A : Type) : Type := Citenet → outcome A * Citenet.

(** ** CitationStore *)

Section Store.

(** [quote_identifier(s)] with [errors = "strict"]: a NUL character makes
    the strict handler raise; otherwise double quotes are doubled. *)
Definition quote_identifier (s : string) : option string :=
  if Py.contains (String "000" "") s then None
  else Some (Py.replace s Py.dq (Py.dq +:+ Py.dq)).

(** One [select pubid from publications where bibtexkey = "b" and
    c = "v"]; the outer [None] stands for [sqlite3.Error]. *)
Definition select_pubid (t : tables) (b c v : string) : option (option row) :=
  b' ← Sql.text2 b;
  v' ← Sql.text2 v;
  Some (Sql.fetchone (λ r, Sql.col_is "bibtexkey" b' r && Sql.col_is c v' r)
          (publications t)).

(** [get_existing_pub_id(bib, title, author)]. A row read back always
    carries its [PubID]: every insert of this program writes one. *)
Definition get_existing_pub_id (bib title author : string) : method string :=
  λ s,
  let s := get_cursor s in
  let t := Con.view (dbcon s) in
  let r :=
    (* try (bibtexkey, title) *)
    r ← select_pubid t bib "title" title;
    (* try (bibtexkey, title-without-quotes) *)
    r ← (if r is None
         then select_pubid t bib "title" (Py.replace title "''" "'")
         else Some r);
    (* try (bibtexkey, author) *)
    (if r is None then select_pubid t bib "author" author else Some r) in
  match r with
  | None => (Raised SystemExit, logger ERROR "002: DB error" s)
  | Some None => (Returned "", s)
  | Some (Some r) => (Returned (default "" (r !! "pubid")), s)
  end.

Definition good : list string :=
  ["bibtexkey"; "type"; "title"; "author"; "journal"; "volume"; "num";
   "pages"; "year"; "publisher"; "cites"; "citedby"; "related"; "searchlevel"].

(** [insert into publications(...) values('...', ...)]; [None] stands
    for [sqlite3.Error]. *)
Definition insert_publication (pub : dict) (t : tables) : option tables :=
  if bool_decide (map_Forall (λ _ v, is_Some (Sql.text1 v)) pub) then
    let r : row := omap Sql.text1 pub in
    if existsb (Sql.same_key r) (publications t) then None
    else Some (Tables (publications t ++ [r]) (citationrelationship t) (header t))
  else None.

(** [insert into citationrelationship(Citation_ID, Publication_ID)
    values("...", "...")] *)
Definition insert_edge (citing cited : string) (t : tables) : option tables :=
  a ← Sql.text2 citing;
  b ← Sql.text2 cited;
  if bool_decide ((a, b) ∈ citationrelationship t) then None
  else Some (Tables (publications t) (citationrelationship t ++ [(a, b)]) (header t)).

(** The statements inside the [try] of [save_publication], run on the
    working copy. *)
Definition save_statements (new_pub : bool) (pub : dict) (pubid : string)
    (current_level : Z) (parent_bibtex : string) (t : tables) : option tables :=
  t ← (if new_pub then insert_publication pub t else Some t);
  (if 0 <? current_level
   then insert_edge pubid parent_bibtex t
   else Some t).

(** Python's [v.replace("'", "''")] followed by [quote_identifier]. *)
Definition escape (v : string) : option string :=
  quote_identifier (Py.replace v "'" "''").

(** The head of [save_publication]: the search level is added, every
    value is escaped, "number" becomes "num" and the keys that are not
    [good] are dropped. [None] stands for the [UnicodeEncodeError] of
    [quote_identifier]. *)
Definition prepare (pub : dict) (s : Citenet) : option dict :=
  let pub := <["searchlevel" := Num.str (current_level (crawl s))]> pub in
  if bool_decide (map_Forall (λ _ v, is_Some (escape v)) pub) then
    let pub : dict := omap escape pub in
    let pub : dict :=
      match pub !! "number" with
      | Some v => <["num" := v]> (delete "number" pub)
      | None => pub
      end in
    Some (filter (λ kv, kv.1 ∈ good) pub)
  else None.

(** The middle of [save_publication]: [new_pub] and [pubid]. *)
Definition assign_pubid (pub : dict) : method (bool * string) :=
  λ s,
  match pub !! "bibtexkey", pub !! "title", pub !! "author" with
  | Some bib, Some title, Some author =>
      match get_existing_pub_id bib title author s with
      | (Raised e, s) => (Raised e, s)
      | (Returned pubid, s) =>
          (* publication was not found *)
          let new_pub := String.eqb pubid "" in
          let pubid :=
            if new_pub then bib +:+ "_" +:+ Num.pad10 (total_records s)
            else pubid in
          (Returned (new_pub, pubid), s)
      end
  | _, _, _ => (Raised KeyError, s)
  end.

(** [save_publication(pub)] *)
Definition save_publication (pub : dict) : method bool :=
  λ s,
  let s := get_cursor s in
  match prepare pub s with
  | None => (Raised UnicodeEncodeError, s)
  | Some pub =>
      match assign_pubid pub s with
      | (Raised e, s) => (Raised e, s)
      | (Returned (new_pub, pubid), s) =>
          let pub := <["pubid" := pubid]> pub in
          match con (dbcon s)
                ≫= save_statements new_pub pub pubid
                      (current_level (crawl s)) (parent_bibtex s) with
          | Some t =>
              (* commit, and increase the record count *)
              let s := set_dbcon (Con.commit (DB (file (dbcon s)) (Some t))) s in
              let s :=
                if new_pub then set_total_records (total_records s + 1) s
                else s in
              (Returned true, s)
          | None =>
              let s := logger ERROR "sqlite3.Error" s in
              let s := logger ERROR "sqlite3.Error" s in
              (* roll back the transaction *)
              (Returned false, set_dbcon (Con.rollback (dbcon s)) s)
          end
      end
  end.

(** [dump_scrape_progress()] *)
Definition dump_scrape_progress (s : Citenet) : Citenet :=
  let s := get_cursor s in
  let c := crawl s in
  let upd (t : tables) : tables :=
    Tables (publications t) (citationrelationship t)
      (Sql.update_header "scrape_done" (if scrape_done c then "1" else "0")
         (Sql.update_header "level_limit" (Num.str (level_limit c))
            (Sql.update_header "progress" (Num.str (progress c))
               (Sql.update_header "current_level" (Num.str (current_level c))
                  (Sql.update_header "current_row" (Num.str (current_row c))
                     (header t)))))) in
  set_dbcon (Con.commit (Con.execute upd (dbcon s))) s.

(** [for d in l: try: self.save_publication(d) except Exception: ...]
    with the error messages [msgs] of the handler; [except Exception]
    lets [SystemExit] through. *)
Fixpoint save_each (msgs : list string) (l : list dict) : method () :=
  λ s,
  match l with
  | [] => (Returned (), s)
  | d :: l' =>
      match save_publication d s with
      | (Raised SystemExit, s) => (Raised SystemExit, s)
      | (Raised _, s) =>
          save_each msgs l' (foldl (λ s m, logger ERROR m s) s msgs)
      | (Returned _, s) => save_each msgs l' s
      end
  end.

(** [dump_papers_to_db()] *)
Definition dump_papers_to_db : method () :=
  λ s,
  let s := logger INFO "Writing articles into the DB" s in
  match save_each ["Error saving publication"; "publication"; "exception"]
          (to_be_dumped s) s with
  | (Raised e, s) => (Raised e, s)
  | (Returned _, s) => (Returned (), dump_scrape_progress s)
  end.

(** [insert into header(key, value) values("...", "...")] for each item
    of the [header] dictionary. *)
Fixpoint insert_header (h : list (string * string)) (t : tables) : option tables :=
  match h with
  | [] => Some t
  | (k, v) :: h' =>
      k' ← Sql.text2 k;
      v' ← Sql.text2 v;
      insert_header h'
        (Tables (publications t) (citationrelationship t) (header t ++ [(k', v')]))
  end.

(** [create_db(path)]. The arguments are what the method reads from the
    object and from the form: the query [self.q], the texts of the three
    line edits, the radio button and [self.seedPapers]. *)
Definition create_db (q edtPercentPerLevel edtMaxPerLevel edtMaxLevel : string)
    (rbtnPercent : bool) (seedPapers : list dict) : method bool :=
  λ s,
  let s := get_cursor s in
  (* the three tables are dropped and created anew *)
  let s := set_dbcon (Con.commit (Con.execute (λ _, Tables [] [] []) (dbcon s))) s in
  let s := on_crawl (set_current_level 0) s in
  match quote_identifier q, Num.int edtMaxLevel with
  | None, _ => (Raised UnicodeEncodeError, s)
  | _, None => (Raised ValueError, s)
  | Some q', Some ml =>
      let h :=
        [("query", q'); ("ppl", edtPercentPerLevel);
         ("max_number", edtPercentPerLevel); ("maxpl", edtMaxPerLevel);
         ("max_level", Num.str (ml + 1)); ("current_level", "1");
         ("current_row", "0"); ("progress", "0"); ("scrape_done", "0");
         ("level_limit", Num.str (Z.of_nat (length seedPapers)));
         ("use_percent", if rbtnPercent then "1" else "0")] in
      match save_each ["Error saving publication"; "exception"] seedPapers s with
      | (Raised e, s) => (Raised e, s)
      | (Returned _, s) =>
          match con (dbcon s) ≫= insert_header h with
          | None =>
              (Returned false, logger ERROR "exception" (logger ERROR "1: DB error" s))
          | Some t =>
              let s := set_dbcon (Con.commit (DB (file (dbcon s)) (Some t))) s in
              let s := on_crawl (set_current_level 1) s in
              let s := on_crawl (set_scrape_done false) s in
              (Returned true, on_fetch (set_was_paused false) s)
          end
      end
  end.

End Store.

(** ** BackoffGuard *)

(** What [detect_captcha] reads from the frame of the loaded page:
    [captcha_field] and [captcha_id] tell whether
    [findFirstElement("#captcha[name='captcha']")] and
    [findFirstElement("[id*=captcha]")] found an element. *)
Record page := Page {
  baseUrl : string;
  toPlainText : string;
  captcha_field : bool;
  captcha_id : bool }.

Section Backoff.

(** [normalvariate(0, sigma)]: the sample drawn for a given [sigma]. *)
Variable normalvariate : Z → Q.

Definition block_text : string :=
  "but your computer or network may be sending automated queries".
Definition forbidden_text : string := "/+/+/+/+/+".

(** [self.timer.start(delay * 60 * 1000)] *)
Definition timer_start (delay : Q) (s : Citenet) : Citenet :=
  on_guard (set_timer (Some (delay * 60 * 1000)%Q)) s.

(** [detect_captcha(page)]: [None] is the [False] of the source, and
    [Some d] the time of the wake-up, [d] seconds from now. *)
Definition detect_captcha (page : page) (s : Citenet) : option Q * Citenet :=
  let url := baseUrl page in
  let page_txt := toPlainText page in
  if Py.contains "sorry" url
     || Py.contains block_text page_txt
     || captcha_field page
     || Py.contains forbidden_text page_txt
     || Py.contains "not a robot" page_txt
     || captcha_id page
  then
    (* calculate the extra delay *)
    let extra_delay := inject_Z (ATTEMPTS (guard s) * 30) in
    let arm (delay : Q) (txt : string) (s : Citenet) :=
      let s := on_guard (set_ATTEMPTS (ATTEMPTS (guard s) + 1)) s in
      let s := timer_start delay s in
      let s := logger WARNING (txt +:+ " - sleeping until") s in
      (Some (delay * 60)%Q, s) in
    if captcha_field page || captcha_id page then
      let s := logger WARNING "Captcha detected" s in
      let extra_delay :=
        if FORCE_DELAY (guard s) then (extra_delay + normalvariate 2)%Q
        else extra_delay in
      let delay := (inject_Z (TIMEOUT_CAPTCHA (guard s)) + extra_delay)%Q in
      arm delay "Captcha detected" s
    else if Py.contains "sorry" url || Py.contains block_text page_txt then
      let s := logger WARNING "Block detected" s in
      let extra_delay :=
        if FORCE_DELAY (guard s) then (extra_delay + normalvariate 10)%Q
        else extra_delay in
      let delay := (inject_Z (TIMEOUT_BLOCK (guard s)) + extra_delay)%Q in
      arm delay "Block detected" s
    else if Py.contains forbidden_text page_txt then
      let s := logger WARNING "403/Forbidden detected" s in
      let s := logger INFO page_txt s in
      arm 1%Q "403/Forbidden detected" s
    else
      (* false alarm *)
      let s :=
        logger WARNING
          "Warning: potential captcha/block found, but not confirmed" s in
      (None, on_guard (set_ATTEMPTS 0) s)
  else (None, on_guard (set_ATTEMPTS 0) s).

End Backoff.

(** ** SamplingPolicy *)

Section Sampling.

(** The cap of percent mode, on the integer [citedby] read from the row
    of the parent: [int((int(r[0]) * self.ppl) / 100)], then "cite at
    least one article". The division of two Python 2 integers rounds
    towards minus infinity, as [Z.div] does for a positive divisor. *)
Definition percent_cap (citedby ppl : Z) : Z :=
  let max_progress := citedby * ppl / 100 in
  if (max_progress =? 0) && (0 <? citedby) then 1 else max_progress.

(** The computation that [dump_papers] and [mrcd] both carry out on
    [SELECT citedby FROM publications WHERE rowid = current_row + 1].
    [CitedBy] holds the digits cut out of the "Cited by" link. *)
Definition max_progress (s : Citenet) : outcome Z :=
  if use_percent (sampling s) then
    match Sql.by_rowid (current_row (crawl s) + 1)
            (publications (Con.view (dbcon s))) with
    | None => Raised TypeError
    | Some r =>
        match r !! "citedby" with
        | None => Raised TypeError
        | Some c =>
            match Num.int c with
            | None => Raised ValueError
            | Some c => Returned (percent_cap c (ppl (sampling s)))
            end
        end
    end
  else Returned (maxpl (sampling s)).

End Sampling.

(** ** CrawlStateMachine *)

Section Crawl.

Variable normalvariate : Z → Q.

(** [load_url(url, timeout)]; the sleep before the request is not
    modelled. *)
Definition load_url (url : string) (timeout : Z) (s : Citenet) : Citenet :=
  let s := on_fetch (set_error_timer (Some (timeout * 1000))) s in
  let s := logger INFO url s in
  on_fetch (set_load url) s.

(** [url_timeout()] *)
Definition url_timeout (s : Citenet) : Citenet :=
  let s := logger WARNING "Connection error - retrying in 5 minutes" s in
  on_fetch (set_timeout_retry_timer (Some (5 * 60 * 1000))) s.

(** A column of a fetched row as ['%s'] prints it. *)
Definition column (c : string) (r : row) : string := default "None" (r !! c).

Definition listing_url (citeid : string) (start : Z) : string :=
  "http://scholar.google.com/scholar?cites=" +:+ citeid
  +:+ "&as_sdt=2005&sciodt=0,5&num=100&hl=en&start=" +:+ Num.str start.

(** [do_continue_data_collection()] *)
Definition do_continue_data_collection : method () :=
  λ s,
  let s := set_dbcon (Con.open (dbcon s)) s in
  match Sql.by_rowid (current_row (crawl s) + 1)
          (publications (Con.view (dbcon s))) with
  | None => (Raised TypeError, s)
  | Some r =>
      let cid := column "cites" r in
      let s := set_parent cid (parent_bibtex s) s in
      match get_existing_pub_id (column "bibtexkey" r) (column "title" r)
              (column "author" r) s with
      | (Raised e, s) => (Raised e, s)
      | (Returned pb, s) =>
          let s := set_parent cid pb s in
          let s := set_dbcon (Con.close (dbcon s)) s in
          let s := on_fetch (set_ss "next") s in
          (Returned (), load_url (listing_url cid (progress (crawl s))) 30 s)
      end
  end.

(** [timer_wakeup()] *)
Definition timer_wakeup : method () :=
  λ s, do_continue_data_collection (logger INFO "Resuming search ..." s).

(** The [for] loop of [dump_papers]; [i] is returned with the object. *)
Fixpoint queue_papers (ps : list string) (i : nat) (max_progress : Z)
    (s : Citenet) : nat * Citenet :=
  match ps with
  | [] => (i, s)
  | p :: ps' =>
      let d := bibtex2dic p in
      let s :=
        match lpCites (listing s) !! i, lpRelated (listing s) !! i with
        | Some c, Some rel =>
            let d := <["cites" := c.1]> d in
            let d := <["citedby" := c.2]> d in
            let d := <["related" := rel]> d in
            set_to_be_dumped (to_be_dumped s ++ [d]) s
        | _, _ =>
            logger ERROR "exception"
              (logger ERROR "publication"
                 (logger ERROR "Error queuing publication" s))
        end in
      let s := on_crawl (set_progress (progress (crawl s) + 1)) s in
      let i := S i in
      if max_progress <=? progress (crawl s) then (i, s)
      else queue_papers ps' i max_progress s
  end.

(** The cursor moves on: the tail of the [if] that follows the flush. *)
Definition advance (s : Citenet) : Citenet :=
  let s := on_crawl (set_progress 0) s in
  let s := on_crawl (set_current_row (current_row (crawl s) + 1)) s in
  if current_row (crawl s) =? level_limit (crawl s) then
    let n := Z.of_nat (length (publications (Con.view (dbcon s)))) in
    let s := on_crawl (set_level_limit n) s in
    on_crawl (set_current_level (current_level (crawl s) + 1)) s
  else s.

(** [dump_papers()] up to its last statement, which either shows the
    closing dialog or goes on ([dump_papers] below). *)
Definition dump_papers_try : method () :=
  λ s,
  let s := set_dbcon (Con.open (dbcon s)) s in
  let s := get_cursor s in
  match max_progress s with
  | Raised e => (Raised e, s)
  | Returned max_progress =>
      let '(i, s) := queue_papers (lpPapers (listing s)) O max_progress s in
      (* all the articles for this paper have been retrieved *)
      let r :=
        if (max_progress <=? progress (crawl s))
           || ((Z.of_nat i <? 10) && (progress (crawl s) <? max_progress))
        then
          (* dump the publications to the db *)
          match dump_papers_to_db s with
          | (Raised e, s) => (Raised e, s)
          | (Returned _, s) => (Returned (), advance (set_to_be_dumped [] s))
          end
        else (Returned (), s) in
      match r with
      | (Raised e, s) => (Raised e, s)
      | (Returned _, s) =>
          let s :=
            on_crawl
              (set_scrape_done
                 (current_level (crawl s) =? max_level (crawl s))) s in
          (Returned (), set_dbcon (Con.close (dbcon s)) s)
      end
  end.

(** [dump_papers()] *)
Definition dump_papers : method () :=
  λ s,
  match dump_papers_try s with
  | (Raised e, s) => (Raised e, s)
  | (Returned _, s) =>
      if scrape_done (crawl s) then (Returned (), s)
      else if was_paused (fetch s)
           then (Returned (), on_fetch (set_was_paused false) s)
           else do_continue_data_collection s
  end.

(** [loadFinished(ok)] as far as the answer to a detected captcha or
    block; [Returned true] says that the handler goes on to the
    dispatch on [self.ss], which is not modelled. *)
Definition loadFinished (ok : bool) (page : page) : method bool :=
  λ s,
  (* stop search altogether on user interruption *)
  if was_paused (fetch s) then
    let s := on_fetch (set_working false) s in
    let s := on_fetch (set_timeout_retry_timer None) s in
    (Returned false, on_fetch (set_error_timer None) s)
  else if negb ok then
    (* retry if a timeout/network error was detected *)
    let s := on_fetch (set_timeout_retry_timer None) s in
    (Returned false, url_timeout s)
  else
    (* check the timeout timers *)
    let s := on_fetch (set_timeout_retry_timer None) s in
    let s := on_fetch (set_error_timer None) s in
    (* stop timer if the user manually acts while on captcha/block *)
    let s := on_guard (set_timer None) s in
    (* detect captcha/block *)
    let '(invalid_request, s) := detect_captcha normalvariate page s in
    match invalid_request with
    | Some _ =>
        let s := on_fetch (set_working false) s in
        (* dump the pending publications to the db *)
        match to_be_dumped s with
        | [] => (Returned false, s)
        | _ :: _ =>
            let s := set_dbcon (Con.open (dbcon s)) s in
            match dump_papers_to_db s with
            | (Raised e, s) => (Raised e, s)
            | (Returned _, s) =>
                let s := set_to_be_dumped [] s in
                (Returned false, set_dbcon (Con.close (dbcon s)) s)
            end
        end
    | None => (Returned true, on_fetch (set_working true) s)
    end.

End Crawl.

(** * Properties *)

(** ** Positions returned by the string primitives *)

Section Positions.

Lemma len_nonneg s : 0 ≤ Py.len s.
Proof. unfold Py.len. lia. Qed.

Lemma len_drop n s : Py.len (Py.drop n s) = Z.max 0 (Py.len s - Z.of_nat n).
Proof.
  unfold Py.len. revert s.
  induction n as [|n IH]; intros [|c s]; simpl; try lia.
  specialize (IH s). lia.
Qed.

Lemma find_from_range sub s i r :
  Py.find_from sub s i = r → r = -1 ∨ i ≤ r.
Proof.
  revert i r.
  induction s as [|c s IH]; intros i r; cbn [Py.find_from];
    destruct (String.prefix sub _); try (intros <-; lia).
  intros H. apply IH in H. lia.
Qed.

(** [find] answers [-1] or a position that is neither negative nor to the
    left of [start]. *)
Lemma find_range s sub start r :
  Py.find s sub start = r → r = -1 ∨ (0 ≤ r ∧ start ≤ r).
Proof.
  unfold Py.find.
  destruct (Py.len s <? _) eqn:E; [intros <-; lia|].
  intros H. apply find_from_range in H. pose proof (len_nonneg s).
  destruct (start <? 0) eqn:E'; lia.
Qed.

Lemma scan_bracket_range s ind nleft r :
  scan_bracket s ind nleft = r → r = -1 ∨ (ind ≤ r ∧ r < ind + Py.len s).
Proof.
  unfold Py.len. revert ind nleft r.
  induction s as [|c s IH]; intros ind nleft r; simpl.
  - intros <-. lia.
  - destruct (_ =? 0).
    + intros <-. lia.
    + intros H. apply IH in H. lia.
Qed.

(** The brace search answers the sentinel [-1] or a position of [s] at or
    after the one it started from. *)
Lemma findNextBracket_range s ind r :
  0 ≤ ind → findNextBracket s ind = r → r = -1 ∨ (ind ≤ r ∧ r < Py.len s).
Proof.
  unfold findNextBracket. intros Hind H.
  apply scan_bracket_range in H. rewrite len_drop in H. lia.
Qed.

End Positions.

(** ** BibtexParser *)

Section BibtexFacts.

(** A pass of the loop body that does not [break] moves the scan
    position at least two characters to the right. *)
Lemma bibtex_body_advances t p res p' res' :
  bibtex_body t p res = Some (p', res') → p + 2 ≤ p' ∧ p' < Py.len t.
Proof.
  unfold bibtex_body.
  destruct (Py.find t "={" p =? -1) eqn:E1; [discriminate|].
  destruct (findNextBracket t (Py.find t "={" p + 2) =? -1) eqn:E2; [discriminate|].
  intros [= <- <-].
  destruct (find_range t "={" p _ eq_refl) as [?|[? ?]]; [lia|].
  destruct (findNextBracket_range t (Py.find t "={" p + 2) _ ltac:(lia) eq_refl)
    as [?|[? ?]]; lia.
Qed.

(** The body only adds entries to the mapping. *)
Lemma bibtex_body_keeps t p res p' res' k :
  bibtex_body t p res = Some (p', res') → is_Some (res !! k) → is_Some (res' !! k).
Proof.
  unfold bibtex_body. repeat case_match; try discriminate.
  intros [= <- <-] Hk. rewrite lookup_insert. case_decide; eauto.
Qed.

(** Enough fuel: the loop ends, and it keeps the keys it was given. *)
Lemma bibtex_loop_enough fuel : ∀ t p res,
  (Z.to_nat (Py.len t - p) < fuel)%nat →
  ∃ d, bibtex_loop fuel t p res = Some d
       ∧ ∀ k, is_Some (res !! k) → is_Some (d !! k).
Proof.
  induction fuel as [|fuel IH]; intros t p res Hf; [lia|].
  cbn [bibtex_loop]. destruct (p <? Py.len t) eqn:E; [|eauto].
  destruct (bibtex_body t p res) as [[p' res']|] eqn:Eb; [|eauto].
  destruct (bibtex_body_advances _ _ _ _ _ Eb) as [Hp _].
  destruct (IH t p' res' ltac:(lia)) as (d & Hd & Hk).
  exists d. split; [done|]. intros k Hr. apply Hk.
  by eapply bibtex_body_keeps.
Qed.

(** More fuel does not change the answer. *)
Lemma bibtex_loop_more fuel : ∀ t p res d n,
  bibtex_loop fuel t p res = Some d → bibtex_loop (fuel + n) t p res = Some d.
Proof.
  induction fuel as [|fuel IH]; intros t p res d n; [discriminate|].
  cbn [bibtex_loop Nat.add]. destruct (p <? Py.len t); [|done].
  destruct (bibtex_body t p res) as [[p' res']|]; [|done]. apply IH.
Qed.

Lemma bibtex_head_start t : -1 ≤ (bibtex_head t).1.
Proof.
  unfold bibtex_head. cbn [fst].
  destruct (find_range t "," (Py.find t "{" 0) _ eq_refl); lia.
Qed.

Lemma bibtex_head_keys t :
  is_Some ((bibtex_head t).2 !! "type") ∧ is_Some ((bibtex_head t).2 !! "bibtexkey").
Proof.
  unfold bibtex_head. cbn [snd]. split.
  - rewrite lookup_insert_ne by done. rewrite lookup_insert_eq. eauto.
  - rewrite lookup_insert_eq. eauto.
Qed.

Lemma bibtex2dic_fuel_enough t n :
  bibtex2dic_fuel (String.length t + 2 + n) t = Some (bibtex2dic t).
Proof.
  unfold bibtex2dic, bibtex2dic_fuel.
  pose proof (bibtex_head_start t) as Hs.
  destruct (bibtex_head t) as [p res]. cbn [fst] in Hs.
  destruct (bibtex_loop_enough (String.length t + 2) t p res) as (d & Hd & _).
  { unfold Py.len. lia. }
  rewrite (bibtex_loop_more _ _ _ _ _ n Hd), Hd. done.
Qed.

(** C10. For every input text, well formed or not, the parser ends and
    hands back a mapping: with [len t + 2] passes of fuel, or more, the
    loop has run to its end; every pass that does not leave the loop moves
    the scan position strictly to the right and keeps it inside the text;
    the brace search, started at a position that is not negative, answers
    the sentinel [-1] or a position of the text not before its start; and
    the mapping has entries for "type" and "bibtexkey". No step of the
    model can raise: [find] and slicing are total in Python, and the only
    subscript, [s[ind]] in [findNextBracket], is reached with
    [0 <= ind < len(s)]. *)
Theorem C10_bibtex2dic_total (t : string) :
  (∀ n, bibtex2dic_fuel (String.length t + 2 + n) t = Some (bibtex2dic t))
  ∧ (∀ p res p' res',
       bibtex_body t p res = Some (p', res') → p < p' ∧ p' < Py.len t)
  ∧ (∀ p, Py.find t "={" p = -1 ∨ 0 ≤ Py.find t "={" p + 2)
  ∧ (∀ ind, 0 ≤ ind →
       findNextBracket t ind = -1
       ∨ (ind ≤ findNextBracket t ind ∧ findNextBracket t ind < Py.len t))
  ∧ is_Some (bibtex2dic t !! "type")
  ∧ is_Some (bibtex2dic t !! "bibtexkey").
Proof.
  split; [apply bibtex2dic_fuel_enough|].
  split.
  { intros p res p' res' H. apply bibtex_body_advances in H. lia. }
  split.
  { intros p. destruct (find_range t "={" p _ eq_refl); lia. }
  split.
  { intros ind Hi. by apply findNextBracket_range. }
  pose proof (bibtex2dic_fuel_enough t 0) as H.
  unfold bibtex2dic_fuel in H.
  destruct (bibtex_head_keys t) as [Ht Hk].
  pose proof (bibtex_head_start t) as Hs.
  destruct (bibtex_head t) as [p res]. cbn [fst snd] in *.
  destruct (bibtex_loop_enough (String.length t + 2 + 0) t p res) as (d & Hd & Hkeep).
  { unfold Py.len. lia. }
  rewrite Hd in H. injection H as ->. split; by apply Hkeep.
Qed.

(** The theorem at an unbalanced block. *)
Lemma C10_bibtex2dic_total_witness :
  bibtex_body "@a{k, x={y}, z={{w}" 4 ∅ = Some (10, {["x" := "y"]})
  ∧ 4 < 10 ∧ 10 < Py.len "@a{k, x={y}, z={{w}"
  ∧ bibtex2dic "@a{k, x={y}, z={{w}" !! "x" = Some "y"
  ∧ bibtex2dic "@a{k, x={y}, z={{w}" !! "z" = None.
Proof.
  pose proof (C10_bibtex2dic_total "@a{k, x={y}, z={{w}") as (_ & H & _).
  assert (E : bibtex_body "@a{k, x={y}, z={{w}" 4 ∅ = Some (10, {["x" := "y"]}))
    by (vm_compute; reflexivity).
  destruct (H 4 ∅ 10 {["x" := "y"]} E) as [H1 H2].
  split; [exact E|]. split; [exact H1|]. split; [exact H2|].
  vm_compute. auto.
Defined.

End BibtexFacts.

Section NestedBraces.

Definition compact_block : string :=
  "@article{a,title={Foo {Bar} Baz},author={X}}".

(** The same block with one character [c] between the comma that ends
    the key and the name of the first field. *)
Definition spaced_block (c : ascii) : string :=
  "@article{a," +:+ String c "title={Foo {Bar} Baz},author={X}}".

(** The parser does read a first field whose name is kept from the comma
    of the key by one character, whatever it is: the blank of the grammar,
    the line break of an exported record. *)
Lemma spaced_block_parses (c : ascii) :
  bibtex2dic (spaced_block c) !! "title" = Some "Foo {Bar} Baz"
  ∧ bibtex2dic (spaced_block c) !! "author" = Some "X".
Proof.
  destruct c as [[] [] [] [] [] [] [] []]; vm_compute; auto.
Qed.

(** C3 at the failing input. The block of the claim is valid BibTeX, and
    the claim is what the parser is meant to do: the depth count does find
    the brace that closes "Foo {Bar} Baz", and the second field, which
    follows a closing brace and a comma, is read in full. But the name of
    the first field is taken from two characters after the comma of the key
    ([oldP = p + 2], one character too many when the name follows the comma
    at once), so it loses its first letter: the mapping has no entry
    "title", and the value sits under "itle". *)
Theorem C3_compact_block_loses_first_letter :
  ¬ (bibtex2dic compact_block !! "title" = Some "Foo {Bar} Baz"
     ∧ bibtex2dic compact_block !! "author" = Some "X")
  ∧ bibtex2dic compact_block !! "title" = None
  ∧ bibtex2dic compact_block !! "itle" = Some "Foo {Bar} Baz"
  ∧ bibtex2dic compact_block !! "author" = Some "X".
Proof.
  split; [intros [H _]; vm_compute in H; discriminate H|].
  vm_compute. auto.
Qed.

End NestedBraces.

(** ** A concrete object *)

(** The object as [__init__] leaves it, on an empty store, with the class
    attributes at their initial values and the crawl set to three levels. *)
Definition initial : Citenet :=
  MkCitenet (MkGuard (60 * 5) (60 * 6) 0 false None)
    (MkCrawl 1 0 0 1 4 false) (MkSampling true 3 3)
    (MkListing [] [] []) (MkFetch "next" false false "" None None [])
    (DB (Tables [] [] []) None) 0 "" "" [] [].

(** ** SamplingPolicy *)

Section SamplingFacts.

(** C5. In percent mode, for [citedby] and [ppl] that are not negative,
    the cap is the floor [fl] of [citedby * ppl / 100], that is the
    integer with [100 * fl <= citedby * ppl < 100 * (fl + 1)], except that
    a floor of 0 becomes 1 when [citedby > 0]. *)
Theorem C5_percent_cap (citedby ppl : Z) :
  0 ≤ citedby → 0 ≤ ppl →
  ∃ fl, 100 * fl ≤ citedby * ppl ∧ citedby * ppl < 100 * (fl + 1)
        ∧ percent_cap citedby ppl
          = if bool_decide (0 < citedby ∧ fl = 0) then 1 else fl.
Proof.
  intros Hc Hp. exists (citedby * ppl / 100).
  pose proof (Z.div_mod (citedby * ppl) 100 ltac:(lia)).
  pose proof (Z.mod_pos_bound (citedby * ppl) 100 ltac:(lia)).
  split; [lia|]. split; [lia|].
  unfold percent_cap.
  destruct (citedby * ppl / 100 =? 0) eqn:E; destruct (0 <? citedby) eqn:E';
    case_bool_decide; simpl; lia.
Qed.

(** The three samples of the specification. *)
Lemma C5_percent_cap_witness :
  (∃ fl, 100 * fl ≤ 57 * 3 ∧ 57 * 3 < 100 * (fl + 1)
         ∧ percent_cap 57 3 = if bool_decide (0 < 57 ∧ fl = 0) then 1 else fl)
  ∧ percent_cap 57 3 = 1 ∧ percent_cap 10 3 = 1 ∧ percent_cap 0 3 = 0.
Proof.
  split; [apply (C5_percent_cap 57 3); lia|].
  repeat split; reflexivity.
Defined.

(** Both call sites hand the parent's [citedby] to that function. *)
Lemma max_progress_percent s r txt c :
  use_percent (sampling s) = true →
  Sql.by_rowid (current_row (crawl s) + 1) (publications (Con.view (dbcon s)))
    = Some r →
  r !! "citedby" = Some txt → Num.int txt = Some c →
  max_progress s = Returned (percent_cap c (ppl (sampling s))).
Proof. unfold max_progress. by intros -> -> -> ->. Qed.

Lemma max_progress_fixed s :
  use_percent (sampling s) = false → max_progress s = Returned (maxpl (sampling s)).
Proof. unfold max_progress. by intros ->. Qed.

End SamplingFacts.

(** ** BackoffGuard *)

Inductive classification := Clean | Captcha | Block | Forbidden | FalseAlarm.

Section BackoffFacts.

Variable normalvariate : Z → Q.

(** The classification in the words of the specification: the signals
    are tried in the order of their priority. *)
Definition classify (p : page) : classification :=
  if captcha_field p || captcha_id p then Captcha
  else if Py.contains "sorry" (baseUrl p)
          || Py.contains block_text (toPlainText p) then Block
  else if Py.contains forbidden_text (toPlainText p) then Forbidden
  else if Py.contains "not a robot" (toPlainText p) then FalseAlarm
  else Clean.

(** The jitter of a delay: drawn only when [FORCE_DELAY] is set. *)
Definition jitter (s : Citenet) (sigma : Z) : Q :=
  if FORCE_DELAY (guard s) then normalvariate sigma else 0%Q.

Ltac run_detect :=
  unfold detect_captcha, classify, jitter, timer_start;
  cbn [logger guard];
  repeat (let E := fresh "E" in
          match goal with
          | |- context [captcha_field ?p] => destruct (captcha_field p) eqn:E
          | |- context [captcha_id ?p] => destruct (captcha_id p) eqn:E
          | |- context [Py.contains ?a ?b] => destruct (Py.contains a b) eqn:E
          | |- context [FORCE_DELAY ?g] => destruct (FORCE_DELAY g) eqn:E
          end; cbn [orb andb negb fst snd]).

(** C6. [detect_captcha] takes its branches in the priority order of the
    classification: the warning it logs, its answer and what it does to
    the attempt counter and to the timer are those of the class of the
    page. A false alarm and a clean page answer [False], set the counter
    to 0 and start no timer. *)
Theorem C6_classification_priority (p : page) (s : Citenet) :
  let r := (detect_captcha normalvariate p s).1 in
  let s' := (detect_captcha normalvariate p s).2 in
  match classify p with
  | Captcha =>
      log s' = (WARNING, "Captcha detected - sleeping until")
               :: (WARNING, "Captcha detected") :: log s
      ∧ is_Some r
  | Block =>
      log s' = (WARNING, "Block detected - sleeping until")
               :: (WARNING, "Block detected") :: log s
      ∧ is_Some r
  | Forbidden =>
      log s' = (WARNING, "403/Forbidden detected - sleeping until")
               :: (INFO, toPlainText p)
               :: (WARNING, "403/Forbidden detected") :: log s
      ∧ is_Some r
  | FalseAlarm =>
      log s' = (WARNING, "Warning: potential captcha/block found, but not confirmed")
               :: log s
      ∧ r = None ∧ ATTEMPTS (guard s') = 0 ∧ timer (guard s') = timer (guard s)
  | Clean =>
      log s' = log s
      ∧ r = None ∧ ATTEMPTS (guard s') = 0 ∧ timer (guard s') = timer (guard s)
  end.
Proof. run_detect; cbn; eauto. Qed.

(** The phrase "not a robot" alone is a false alarm. *)
Example not_a_robot_alone :
  classify (Page "http://scholar.google.com/scholar?q=x"
              "Please show you're not a robot" false false) = FalseAlarm.
Proof. vm_compute. reflexivity. Qed.

(** C4, amended. [delay] is counted in minutes: the timer is started
    with [delay * 60 * 1000] milliseconds and the wake-up is
    [delay * 60] seconds away. For a captcha
    [delay = TIMEOUT_CAPTCHA + ATTEMPTS * 30] plus a sample of
    [normalvariate(0, 2)] when [FORCE_DELAY] is set; for a block
    [delay = TIMEOUT_BLOCK + ATTEMPTS * 30] plus a sample of
    [normalvariate(0, 10)] when [FORCE_DELAY] is set; for a forbidden page
    [delay = 1], sixty seconds. All three add one to the attempt
    counter. *)
Theorem C4_backoff_delays (p : page) (s : Citenet) :
  let r := (detect_captcha normalvariate p s).1 in
  let s' := (detect_captcha normalvariate p s).2 in
  let scheduled (delay : Q) :=
    (∃ ms, timer (guard s') = Some ms ∧ ms == delay * 60 * 1000)%Q
    ∧ (∃ secs, r = Some secs ∧ secs == delay * 60)%Q
    ∧ ATTEMPTS (guard s') = ATTEMPTS (guard s) + 1 in
  match classify p with
  | Captcha =>
      scheduled (inject_Z (TIMEOUT_CAPTCHA (guard s))
                 + inject_Z (ATTEMPTS (guard s) * 30) + jitter s 2)%Q
  | Block =>
      scheduled (inject_Z (TIMEOUT_BLOCK (guard s))
                 + inject_Z (ATTEMPTS (guard s) * 30) + jitter s 10)%Q
  | Forbidden => scheduled 1%Q
  | FalseAlarm | Clean => True
  end.
Proof.
  run_detect; cbn; try done;
    (split; [eexists; split; [reflexivity|ring]|
     split; [eexists; split; [reflexivity|ring]|reflexivity]]).
Qed.

(** [detect_captcha] touches the guard and the log only; it answers
    with a wake-up time, and leaves the timer armed, exactly for the three
    classes that are confirmed. *)
Lemma detect_captcha_state (p : page) (s : Citenet) :
  let r := (detect_captcha normalvariate p s).1 in
  let s' := (detect_captcha normalvariate p s).2 in
  (crawl s' = crawl s ∧ sampling s' = sampling s ∧ listing s' = listing s
   ∧ fetch s' = fetch s ∧ dbcon s' = dbcon s
   ∧ total_records s' = total_records s ∧ parent_bibtex s' = parent_bibtex s
   ∧ citeid s' = citeid s ∧ to_be_dumped s' = to_be_dumped s)
  ∧ match classify p with
    | Captcha | Block | Forbidden => is_Some r ∧ is_Some (timer (guard s'))
    | FalseAlarm | Clean => r = None
    end.
Proof. run_detect; cbn; eauto 12. Qed.

End BackoffFacts.

Section BackoffCounterexample.

Definition forbidden_page : page :=
  Page "http://scholar.google.com/scholar?cites=1" "/+/+/+/+/+/+/" false false.

Definition captcha_page : page :=
  Page "http://scholar.google.com/scholar?cites=1" "" true true.

(** C4, as stated, fails twice. A forbidden page does not leave the
    attempt counter as it was: it goes from 0 to 1. And the delay of a
    captcha is not [captchaBaseTimeout + attempts * 30] seconds: with
    the initial base of 300, one earlier attempt and no jitter the wake-up
    is 19800 seconds away ((300 + 30) minutes), which is neither 330
    seconds nor, with the base read in seconds, 300 * 60 + 30. *)
Lemma C4_forbidden_counts_and_delay_in_minutes :
  let s1 := (detect_captcha (λ _, 0%Q) forbidden_page initial).2 in
  let r2 := (detect_captcha (λ _, 0%Q) captcha_page s1).1 in
  classify forbidden_page = Forbidden
  ∧ ATTEMPTS (guard initial) = 0
  ∧ ATTEMPTS (guard s1) ≠ ATTEMPTS (guard initial)
  ∧ classify captcha_page = Captcha
  ∧ TIMEOUT_CAPTCHA (guard s1) = 300 ∧ ATTEMPTS (guard s1) = 1
  ∧ ∃ secs, r2 = Some secs
            ∧ (secs == 19800)%Q
            ∧ ¬ (secs == inject_Z (300 + 1 * 30))%Q
            ∧ ¬ (secs == inject_Z (300 * 60 + 1 * 30))%Q.
Proof.
  cbv zeta. repeat split; try (vm_compute; congruence).
  eexists. split; [vm_compute; reflexivity|].
  repeat split; vm_compute; congruence.
Qed.

End BackoffCounterexample.

(** ** CitationStore *)

Section StoreFacts.

(** Nothing is pending on the connection. *)
Definition clean (d : DBConnection) : Prop :=
  con d = None ∨ con d = Some (file d).

(** The parts of the object that the store operations leave alone. *)
Definition same_frame (s s' : Citenet) : Prop :=
  guard s' = guard s ∧ crawl s' = crawl s ∧ sampling s' = sampling s
  ∧ listing s' = listing s ∧ fetch s' = fetch s
  ∧ parent_bibtex s' = parent_bibtex s ∧ citeid s' = citeid s
  ∧ to_be_dumped s' = to_be_dumped s.

Lemma same_frame_refl s : same_frame s s.
Proof. by repeat split. Qed.

Lemma same_frame_trans s1 s2 s3 :
  same_frame s1 s2 → same_frame s2 s3 → same_frame s1 s3.
Proof. unfold same_frame. intuition congruence. Qed.

Lemma get_cursor_frame s :
  same_frame s (get_cursor s) ∧ total_records (get_cursor s) = total_records s.
Proof. unfold get_cursor. destruct (con (dbcon s)); by repeat split. Qed.

Lemma get_cursor_clean s :
  clean (dbcon s) →
  dbcon (get_cursor s) = DB (file (dbcon s)) (Some (file (dbcon s))).
Proof.
  unfold get_cursor, clean. intros H.
  destruct (con (dbcon s)) eqn:E; [|done].
  destruct H as [H|H]; [discriminate|].
  destruct (dbcon s); cbn in *; congruence.
Qed.

Lemma get_existing_pub_id_state bib title author s :
  let s' := (get_existing_pub_id bib title author s).2 in
  dbcon s' = dbcon (get_cursor s) ∧ same_frame s s'
  ∧ total_records s' = total_records s.
Proof.
  destruct (get_cursor_frame s) as [Hf Ht].
  unfold get_existing_pub_id.
  repeat case_match; cbn; by repeat split; try apply Hf.
Qed.

Lemma assign_pubid_state pub s :
  let s' := (assign_pubid pub s).2 in
  (dbcon s' = dbcon (get_cursor s) ∨ dbcon s' = dbcon s) ∧ same_frame s s'
  ∧ total_records s' = total_records s.
Proof.
  unfold assign_pubid.
  destruct (pub !! "bibtexkey") as [bib|]; [|by repeat split; auto].
  destruct (pub !! "title") as [title|]; [|by repeat split; auto].
  destruct (pub !! "author") as [author|]; [|by repeat split; auto].
  pose proof (get_existing_pub_id_state bib title author s) as (Hd & Hf & Ht).
  destruct (get_existing_pub_id bib title author s) as [[pubid|e] s']; cbn in *; auto.
Qed.

(** [t'] holds the rows of [t], in their places, and possibly more. *)
Definition extends (t t' : tables) : Prop :=
  publications t `prefix_of` publications t'
  ∧ citationrelationship t `prefix_of` citationrelationship t'
  ∧ header t' = header t.

Lemma extends_refl t : extends t t.
Proof. by repeat split. Qed.

Lemma extends_trans t1 t2 t3 : extends t1 t2 → extends t2 t3 → extends t1 t3.
Proof.
  intros (? & ? & ?) (? & ? & ?). split; [by etrans|]. split; [by etrans|].
  congruence.
Qed.

Lemma insert_publication_spec pub t t' :
  insert_publication pub t = Some t' →
  ∃ r : row, publications t' = publications t ++ [r]
    ∧ citationrelationship t' = citationrelationship t
    ∧ header t' = header t
    ∧ (∀ k v, pub !! k = Some v → ∃ v', Sql.text1 v = Some v' ∧ r !! k = Some v')
    ∧ existsb (Sql.same_key r) (publications t) = false.
Proof.
  unfold insert_publication. case_bool_decide as Hall; [|discriminate].
  destruct (existsb _ _) eqn:E; [discriminate|]. intros [= <-].
  eexists. repeat split; try done.
  intros k v Hk. destruct (Hall k v Hk) as [v' Hv'].
  exists v'. split; [done|]. rewrite lookup_omap, Hk. done.
Qed.

Lemma insert_edge_spec a b t t' :
  insert_edge a b t = Some t' →
  ∃ a' b', Sql.text2 a = Some a' ∧ Sql.text2 b = Some b'
    ∧ ((a', b') ∉ citationrelationship t)
    ∧ citationrelationship t' = citationrelationship t ++ [(a', b')]
    ∧ publications t' = publications t ∧ header t' = header t.
Proof.
  unfold insert_edge.
  destruct (Sql.text2 a) as [a'|]; [|discriminate].
  destruct (Sql.text2 b) as [b'|]; [|discriminate]. cbn.
  case_bool_decide; [discriminate|]. intros [= <-].
  exists a', b'. by repeat split.
Qed.

(** An edge that is in the table is refused. *)
Lemma insert_edge_twice a b a' b' t :
  Sql.text2 a = Some a' → Sql.text2 b = Some b' →
  (a', b') ∈ citationrelationship t → insert_edge a b t = None.
Proof.
  unfold insert_edge. intros -> -> H. cbn. by rewrite bool_decide_eq_true_2.
Qed.

Lemma save_statements_extends new_pub pub pubid lvl parent t t' :
  save_statements new_pub pub pubid lvl parent t = Some t' →
  extends t t'
  ∧ (NoDup (citationrelationship t) → NoDup (citationrelationship t')).
Proof.
  unfold save_statements.
  destruct (if new_pub then insert_publication pub t else Some t)
    as [t1|] eqn:E1; [|discriminate]. cbn.
  assert (extends t t1 ∧ citationrelationship t1 = citationrelationship t)
    as [H1 He1].
  { destruct new_pub; [|injection E1 as <-; split; [apply extends_refl|done]].
    apply insert_publication_spec in E1 as (r & Hp & He & Hh & _).
    repeat split; try done.
    - rewrite Hp. by apply prefix_app_r.
    - by rewrite He. }
  destruct (0 <? lvl).
  - intros H. apply insert_edge_spec in H as (a' & b' & _ & _ & Hn & He & Hp & Hh).
    split.
    + eapply extends_trans; [exact H1|]. repeat split; try done.
      * by rewrite Hp.
      * rewrite He. by apply prefix_app_r.
    + rewrite He, He1. rewrite He1 in Hn.
      intros Hnd. apply NoDup_app. repeat split; try done.
      * intros x Hx Hx'. apply list_elem_of_singleton in Hx'. by subst.
      * apply NoDup_singleton.
  - intros [= <-]. split; [done|]. by rewrite He1.
Qed.

Lemma get_cursor_open s t : con (dbcon s) = Some t → get_cursor s = s.
Proof. unfold get_cursor. by intros ->. Qed.

(** What one call of [save_publication] does to the store: either
    nothing, or the statements of the record, committed. *)
Inductive saved (s : Citenet) (r : outcome bool) (s' : Citenet) : Prop :=
  | saved_nothing :
      r ≠ Returned true →
      file (dbcon s') = file (dbcon s) →
      con (dbcon s') = Some (file (dbcon s)) →
      total_records s' = total_records s →
      (r = Returned false →
       ∃ l, log s' = (ERROR, "sqlite3.Error") :: (ERROR, "sqlite3.Error") :: l) →
      saved s r s'
  | saved_record pub new_pub pubid :
      r = Returned true →
      save_statements new_pub pub pubid (current_level (crawl s))
        (parent_bibtex s) (file (dbcon s)) = Some (file (dbcon s')) →
      con (dbcon s') = Some (file (dbcon s')) →
      total_records s' = total_records s + (if new_pub then 1 else 0) →
      saved s r s'.

Lemma save_publication_saved d s :
  clean (dbcon s) →
  saved s (save_publication d s).1 (save_publication d s).2
  ∧ same_frame s (save_publication d s).2.
Proof.
  intros Hc. unfold save_publication.
  pose proof (get_cursor_clean s Hc) as Hdb.
  destruct (get_cursor_frame s) as [Hf Ht].
  set (s0 := get_cursor s) in *.
  assert (Hopen : get_cursor s0 = s0).
  { apply (get_cursor_open _ (file (dbcon s))). by rewrite Hdb. }
  destruct (prepare d s0) as [pub|]; cbn [fst snd].
  2:{ split; [|done]. apply saved_nothing; rewrite ?Hdb; done. }
  pose proof (assign_pubid_state pub s0) as (Hd1 & Hf1 & Ht1).
  rewrite Hopen in Hd1.
  destruct (assign_pubid pub s0) as [[[new_pub pubid]|e] s1]; cbn [fst snd] in *.
  2:{ split; [|by eapply same_frame_trans].
      assert (dbcon s1 = dbcon s0) as Hd by (by destruct Hd1).
      apply saved_nothing; rewrite ?Hd, ?Hdb; try done. congruence. }
  assert (dbcon s1 = dbcon s0) as Hd by (by destruct Hd1). clear Hd1.
  assert (Hlvl : current_level (crawl s1) = current_level (crawl s)).
  { destruct Hf as (_ & E1 & _), Hf1 as (_ & E2 & _). congruence. }
  assert (Hpar : parent_bibtex s1 = parent_bibtex s).
  { destruct Hf as (_ & _ & _ & _ & _ & E1 & _),
      Hf1 as (_ & _ & _ & _ & _ & E2 & _). congruence. }
  rewrite Hd, Hdb, Hlvl, Hpar. cbn [con file mbind option_bind].
  destruct (save_statements _ _ _ _ _ _) as [t|] eqn:Es; cbn [fst snd].
  - split.
    + eapply (saved_record _ _ _ _ new_pub); [done| | |].
      * destruct new_pub; cbn; exact Es.
      * by destruct new_pub.
      * destruct new_pub; cbn; lia.
    + destruct new_pub; cbn; by eapply same_frame_trans.
  - split.
    + apply saved_nothing; cbn; rewrite ?Hd, ?Hdb; try done; [congruence|eauto].
    + by eapply same_frame_trans.
Qed.

(** A record is written whole or not at all, nothing stays pending, and
    what was committed before stays where it was. *)
Lemma save_publication_atomic d s :
  clean (dbcon s) →
  let r := save_publication d s in
  clean (dbcon r.2)
  ∧ extends (file (dbcon s)) (file (dbcon r.2))
  ∧ (r.1 ≠ Returned true → file (dbcon r.2) = file (dbcon s))
  ∧ (NoDup (citationrelationship (file (dbcon s))) →
     NoDup (citationrelationship (file (dbcon r.2))))
  ∧ same_frame s r.2.
Proof.
  intros Hc r. destruct (save_publication_saved d s Hc) as [Hs Hf].
  fold r in Hs, Hf. split; [|split; [|split; [|split]]]; try done.
  - destruct Hs as [_ H1 H2 _ _|? ? ? _ _ H2 _]; right; congruence.
  - destruct Hs as [_ H1 _ _ _|? ? ? _ H1 _ _].
    + rewrite H1. apply extends_refl.
    + by apply save_statements_extends in H1 as [? _].
  - destruct Hs as [_ H1 _ _ _|? ? ? H0 _ _ _]; [done|]. congruence.
  - destruct Hs as [_ H1 _ _ _|? ? ? _ H1 _ _].
    + by rewrite H1.
    + by apply save_statements_extends in H1 as [_ ?].
Qed.

Lemma log_errors_state msgs s :
  let s' := foldl (λ s m, logger ERROR m s) s msgs in
  dbcon s' = dbcon s ∧ same_frame s s' ∧ total_records s' = total_records s.
Proof.
  revert s. induction msgs as [|m msgs IH]; intros s; cbn; [by repeat split|].
  destruct (IH (logger ERROR m s)) as (-> & Hf & ->). by repeat split; try apply Hf.
Qed.

(** The loop of a flush, record after record. *)
Lemma save_each_atomic msgs l : ∀ s,
  clean (dbcon s) →
  let r := save_each msgs l s in
  clean (dbcon r.2)
  ∧ extends (file (dbcon s)) (file (dbcon r.2))
  ∧ (NoDup (citationrelationship (file (dbcon s))) →
     NoDup (citationrelationship (file (dbcon r.2))))
  ∧ same_frame s r.2.
Proof.
  induction l as [|d l IH]; intros s Hc; cbn [save_each].
  { repeat split; try done. }
  destruct (save_publication_atomic d s Hc) as (Hc1 & He1 & _ & Hn1 & Hf1).
  destruct (save_publication d s) as [[b|e] s1]; cbn [fst snd] in *.
  - destruct (IH s1 Hc1) as (Hc2 & He2 & Hn2 & Hf2).
    repeat split; try done; try (by eapply extends_trans); try (by auto).
    all: try (by eapply same_frame_trans).
    all: apply (same_frame_trans _ _ _ Hf1 Hf2).
  - pose proof (log_errors_state msgs s1) as (Hd & Hf & _).
    assert (Hc' : clean (dbcon (foldl (λ s m, logger ERROR m s) s1 msgs)))
      by (by rewrite Hd).
    destruct (IH _ Hc') as (Hc2 & He2 & Hn2 & Hf2). rewrite Hd in He2, Hn2.
    destruct e; cbn [fst snd]; repeat split; try done;
      try (by eapply extends_trans); try (by auto);
      try apply (same_frame_trans _ _ _ Hf1 (same_frame_trans _ _ _ Hf Hf2));
      try apply Hf1.
Qed.

Lemma save_each_app msgs l1 l2 : ∀ s,
  save_each msgs (l1 ++ l2) s
  = match save_each msgs l1 s with
    | (Returned _, s1) => save_each msgs l2 s1
    | (Raised e, s1) => (Raised e, s1)
    end.
Proof.
  induction l1 as [|d l1 IH]; intros s; cbn [save_each app]; [done|].
  destruct (save_publication d s) as [[b|[]] s1]; by rewrite ?IH.
Qed.

Lemma dump_scrape_progress_tables s :
  clean (dbcon s) →
  let s' := dump_scrape_progress s in
  clean (dbcon s')
  ∧ publications (file (dbcon s')) = publications (file (dbcon s))
  ∧ citationrelationship (file (dbcon s'))
    = citationrelationship (file (dbcon s))
  ∧ same_frame s s'.
Proof.
  intros Hc. unfold dump_scrape_progress.
  pose proof (get_cursor_clean s Hc) as Hdb.
  destruct (get_cursor_frame s) as [Hf _].
  cbn. rewrite Hdb. cbn. repeat split; try apply Hf. by right.
Qed.

End StoreFacts.

Section BatchFacts.

(** A record that cites the parent of [at_level_one]. *)
Definition record_k : dict :=
  <["bibtexkey" := "k"]> (<["title" := "T"]> (<["author" := "A"]>
    (<["cites" := "9"]> (<["citedby" := "57"]> {["related" := ""]})))).

(** A crawl at level 1 under the parent "p_0000000000", nothing stored. *)
Definition at_level_one (batch : list dict) : Citenet :=
  set_to_be_dumped batch (set_parent "1" "p_0000000000" initial).

Definition flush_messages : list string :=
  ["Error saving publication"; "publication"; "exception"].

(** C1, as stated, fails. The batch holds the same record twice: the
    second write of the edge is refused and [save_publication] answers
    [False], yet the publication and the edge that the first record wrote
    are in the committed store after the flush. *)
Lemma C1_failed_record_keeps_earlier_rows :
  let s := at_level_one [record_k; record_k] in
  let s1 := (save_publication record_k s).2 in
  let s4 := (dump_papers_to_db s).2 in
  (save_publication record_k s).1 = Returned true
  ∧ (save_publication record_k s1).1 = Returned false
  ∧ length (publications (file (dbcon s))) = 0%nat
  ∧ citationrelationship (file (dbcon s)) = []
  ∧ length (publications (file (dbcon s4))) = 1%nat
  ∧ citationrelationship (file (dbcon s4)) = [("k_0000000000", "p_0000000000")].
Proof. vm_compute. repeat split; reflexivity. Qed.

(** C1, amended. A flush commits record by record. When the flush
    reaches a record [d] of the batch, nothing is pending; if
    [save_publication d] does not answer [True], the committed store is
    the one that the earlier records left, so the writes of [d] are
    rolled back alone; and the rows written before [d], by the earlier
    records of the batch too, are in the committed store when the flush
    is over, with nothing left pending. *)
Theorem C1_flush_commits_record_by_record (s : Citenet) (l1 l2 : list dict) (d : dict) :
  clean (dbcon s) →
  to_be_dumped s = l1 ++ d :: l2 →
  let s0 := logger INFO "Writing articles into the DB" s in
  (save_each flush_messages l1 s0).1 = Returned () →
  let s1 := (save_each flush_messages l1 s0).2 in
  let r := save_publication d s1 in
  let s4 := (dump_papers_to_db s).2 in
  clean (dbcon s1)
  ∧ clean (dbcon r.2)
  ∧ (r.1 ≠ Returned true → file (dbcon r.2) = file (dbcon s1))
  ∧ publications (file (dbcon s1)) `prefix_of` publications (file (dbcon s4))
  ∧ citationrelationship (file (dbcon s1))
    `prefix_of` citationrelationship (file (dbcon s4))
  ∧ clean (dbcon s4).
Proof.
  intros Hc Hb s0 Hr s1 r s4.
  assert (Hc0 : clean (dbcon s0)) by done.
  destruct (save_each_atomic flush_messages l1 s0 Hc0) as (Hc1 & _ & _ & _).
  fold s1 in Hc1.
  destruct (save_publication_atomic d s1 Hc1) as (Hcr & _ & Hno & _).
  fold r in Hcr, Hno.
  split; [done|]. split; [done|]. split; [done|].
  assert (Hrest : ∃ s3, (save_each flush_messages (to_be_dumped s0) s0).2 = s3
            ∧ clean (dbcon s3)
            ∧ extends (file (dbcon s1)) (file (dbcon s3))).
  { replace (to_be_dumped s0) with (l1 ++ d :: l2) by done.
    rewrite save_each_app. fold flush_messages.
    destruct (save_each flush_messages l1 s0) as [[[]|e] s1'] eqn:E1;
      cbn [fst snd] in *; [|discriminate]. subst s1.
    destruct (save_each_atomic flush_messages (d :: l2) s1' Hc1) as (? & ? & _).
    eauto. }
  destruct Hrest as (s3 & Hs3 & Hc3 & He3 & Hee3 & _).
  subst s4. unfold dump_papers_to_db. fold s0. fold flush_messages.
  destruct (save_each flush_messages (to_be_dumped s0) s0) as [[[]|e] s3'];
    cbn [fst snd] in *; subst s3'; [|done].
  destruct (dump_scrape_progress_tables s3 Hc3) as (? & -> & -> & _). done.
Qed.

(** The theorem on the batch of the counterexample: the second record
    fails and leaves what the first one wrote. *)
Lemma C1_flush_commits_record_by_record_witness :
  let s := at_level_one [record_k; record_k] in
  let s0 := logger INFO "Writing articles into the DB" s in
  let s1 := (save_each flush_messages [record_k] s0).2 in
  let r := save_publication record_k s1 in
  let s4 := (dump_papers_to_db s).2 in
  r.1 = Returned false
  ∧ file (dbcon r.2) = file (dbcon s1)
  ∧ publications (file (dbcon s1)) `prefix_of` publications (file (dbcon s4))
  ∧ length (publications (file (dbcon s1))) = 1%nat.
Proof.
  cbv zeta.
  pose proof (C1_flush_commits_record_by_record
                (at_level_one [record_k; record_k]) [record_k] [] record_k
                (or_introl eq_refl) eq_refl eq_refl) as (_ & _ & H3 & H4 & _).
  split; [vm_compute; reflexivity|].
  split; [apply H3; vm_compute; discriminate|].
  split; [exact H4|]. vm_compute. reflexivity.
Defined.

End BatchFacts.

Section EdgeFacts.

(** [save_publication] once the record is prepared and its [pubid] is
    known: the statements decide between commit and rollback. *)
Lemma save_publication_eq d s pub new_pub pubid s1 :
  clean (dbcon s) →
  prepare d (get_cursor s) = Some pub →
  assign_pubid pub (get_cursor s) = (Returned (new_pub, pubid), s1) →
  save_publication d s
  = match save_statements new_pub (<["pubid" := pubid]> pub) pubid
            (current_level (crawl s)) (parent_bibtex s) (file (dbcon s)) with
    | Some t =>
        let s2 := set_dbcon (DB t (Some t)) s1 in
        (Returned true,
         if new_pub then set_total_records (total_records s2 + 1) s2 else s2)
    | None =>
        (Returned false,
         set_dbcon (DB (file (dbcon s)) (Some (file (dbcon s))))
           (logger ERROR "sqlite3.Error" (logger ERROR "sqlite3.Error" s1)))
    end.
Proof.
  intros Hc Hp Ha. unfold save_publication. rewrite Hp, Ha.
  pose proof (get_cursor_clean s Hc) as Hdb.
  destruct (get_cursor_frame s) as [Hf _].
  pose proof (assign_pubid_state pub (get_cursor s)) as (Hd1 & Hf1 & _).
  rewrite Ha in Hd1, Hf1. cbn [snd] in Hd1, Hf1.
  rewrite (get_cursor_open (get_cursor s) (file (dbcon s))) in Hd1
    by (by rewrite Hdb).
  assert (Hd : dbcon s1 = DB (file (dbcon s)) (Some (file (dbcon s))))
    by (destruct Hd1; congruence).
  assert (Hlvl : current_level (crawl s1) = current_level (crawl s)).
  { destruct Hf as (_ & E1 & _), Hf1 as (_ & E2 & _). congruence. }
  assert (Hpar : parent_bibtex s1 = parent_bibtex s).
  { destruct Hf as (_ & _ & _ & _ & _ & E1 & _),
      Hf1 as (_ & _ & _ & _ & _ & E2 & _). congruence. }
  rewrite Hd, Hlvl, Hpar. cbn [con file mbind option_bind].
  destruct (save_statements _ _ _ _ _ _) as [t|]; [by destruct new_pub|].
  unfold Con.rollback. cbn [logger set_dbcon dbcon]. by rewrite Hd.
Qed.

Lemma save_statements_duplicate new_pub pub pubid lvl parent t a' b' :
  0 < lvl → Sql.text2 pubid = Some a' → Sql.text2 parent = Some b' →
  (a', b') ∈ citationrelationship t →
  save_statements new_pub pub pubid lvl parent t = None.
Proof.
  intros Hl Ha Hb Hin. unfold save_statements.
  destruct new_pub.
  - destruct (insert_publication pub t) as [t1|] eqn:E; [|done]. cbn.
    apply insert_publication_spec in E as (r & _ & He & _).
    rewrite (proj2 (Z.ltb_lt _ _) Hl).
    eapply insert_edge_twice; eauto. by rewrite He.
  - cbn. rewrite (proj2 (Z.ltb_lt _ _) Hl). eapply insert_edge_twice; eauto.
Qed.

(** C2, as stated, fails: the second insertion of an edge is not passed
    over in silence. The primary key refuses it, and [save_publication]
    treats that as the database error it is: two entries at level
    [ERROR] go to the log, the transaction is rolled back and the answer
    is [False]. *)
Lemma C2_second_insertion_is_an_error :
  let s := at_level_one [] in
  let s1 := (save_publication record_k s).2 in
  let r2 := save_publication record_k s1 in
  (save_publication record_k s).1 = Returned true
  ∧ citationrelationship (file (dbcon s1)) = [("k_0000000000", "p_0000000000")]
  ∧ r2.1 = Returned false
  ∧ r2.1 ≠ Returned true
  ∧ log r2.2 = (ERROR, "sqlite3.Error") :: (ERROR, "sqlite3.Error") :: log s1.
Proof. vm_compute. repeat split; try reflexivity. discriminate. Qed.

(** C2, amended. The store keeps one row for an edge: a call of
    [save_publication] leaves the committed edge table free of
    duplicates and keeps the edges that were in it. The second insertion
    of an edge is refused by the primary key; when the edge of the record
    is in the table already, [save_publication] answers [False], logs
    the error twice at level [ERROR], rolls back, and the committed store
    is what it was. *)
Theorem C2_duplicate_edge (d : dict) (s : Citenet) :
  clean (dbcon s) →
  NoDup (citationrelationship (file (dbcon s))) →
  let r := save_publication d s in
  NoDup (citationrelationship (file (dbcon r.2)))
  ∧ (∀ e, e ∈ citationrelationship (file (dbcon s)) →
          e ∈ citationrelationship (file (dbcon r.2)))
  ∧ (∀ pub new_pub pubid s1 a' b',
       0 < current_level (crawl s) →
       prepare d (get_cursor s) = Some pub →
       assign_pubid pub (get_cursor s) = (Returned (new_pub, pubid), s1) →
       Sql.text2 pubid = Some a' → Sql.text2 (parent_bibtex s) = Some b' →
       (a', b') ∈ citationrelationship (file (dbcon s)) →
       r.1 = Returned false
       ∧ file (dbcon r.2) = file (dbcon s)
       ∧ log r.2 = (ERROR, "sqlite3.Error") :: (ERROR, "sqlite3.Error") :: log s1).
Proof.
  intros Hc Hnd r.
  destruct (save_publication_atomic d s Hc) as (_ & (_ & He & _) & _ & Hn & _).
  fold r in He, Hn. split; [auto|]. split.
  { intros e Hin. destruct He as [k ->]. apply elem_of_app. by left. }
  intros pub new_pub pubid s1 a' b' Hl Hp Ha Ha' Hb' Hin.
  subst r. rewrite (save_publication_eq d s pub new_pub pubid s1 Hc Hp Ha).
  by rewrite (save_statements_duplicate _ _ _ _ _ _ a' b' Hl Ha' Hb' Hin).
Qed.

(** The same record saved a second time. *)
Lemma C2_duplicate_edge_witness :
  let s := (save_publication record_k (at_level_one [])).2 in
  let r := save_publication record_k s in
  citationrelationship (file (dbcon s)) = [("k_0000000000", "p_0000000000")]
  ∧ NoDup (citationrelationship (file (dbcon r.2)))
  ∧ ("k_0000000000", "p_0000000000") ∈ citationrelationship (file (dbcon r.2))
  ∧ r.1 = Returned false
  ∧ file (dbcon r.2) = file (dbcon s).
Proof.
  cbv zeta.
  set (s := (save_publication record_k (at_level_one [])).2).
  assert (Hc : clean (dbcon s)) by (right; vm_compute; reflexivity).
  assert (He : citationrelationship (file (dbcon s))
               = [("k_0000000000", "p_0000000000")]) by (vm_compute; reflexivity).
  assert (Hnd : NoDup (citationrelationship (file (dbcon s)))).
  { rewrite He. apply NoDup_singleton. }
  destruct (C2_duplicate_edge record_k s Hc Hnd) as (H1 & H2 & H3).
  split; [exact He|]. split; [exact H1|].
  split; [apply H2; rewrite He; apply list_elem_of_here|].
  destruct (assign_pubid
              (default ∅ (prepare record_k (get_cursor s))) (get_cursor s))
    as [o s1] eqn:Ea.
  assert (Eo : o = Returned (false, "k_0000000000")).
  { apply (f_equal fst) in Ea. cbn [fst] in Ea. rewrite <- Ea.
    vm_compute. reflexivity. }
  subst o.
  destruct (H3 (default ∅ (prepare record_k (get_cursor s))) false
              "k_0000000000" s1 "k_0000000000" "p_0000000000") as (R1 & R2 & _).
  - vm_compute. reflexivity.
  - vm_compute. reflexivity.
  - exact Ea.
  - vm_compute. reflexivity.
  - vm_compute. reflexivity.
  - rewrite He. apply list_elem_of_here.
  - split; [exact R1|exact R2].
Defined.

End EdgeFacts.

Section UpsertFacts.

(** The three look-ups are tried in their order, and the first row found
    gives the [pubid]. *)
Lemma get_existing_pub_id_order bib title author s :
  let t := Con.view (dbcon (get_cursor s)) in
  (get_existing_pub_id bib title author s).1
  = match select_pubid t bib "title" title with
    | None => Raised SystemExit
    | Some (Some r) => Returned (default "" (r !! "pubid"))
    | Some None =>
        match select_pubid t bib "title" (Py.replace title "''" "'") with
        | None => Raised SystemExit
        | Some (Some r) => Returned (default "" (r !! "pubid"))
        | Some None =>
            match select_pubid t bib "author" author with
            | None => Raised SystemExit
            | Some (Some r) => Returned (default "" (r !! "pubid"))
            | Some None => Returned ""
            end
        end
    end.
Proof.
  unfold get_existing_pub_id. cbn zeta.
  destruct (select_pubid _ bib "title" title) as [[r|]|]; cbn; [done| |done].
  destruct (select_pubid _ bib "title" (Py.replace title "''" "'"))
    as [[r|]|]; cbn; [done| |done].
  by destruct (select_pubid _ bib "author" author) as [[r|]|].
Qed.

(** A publication that is found is not inserted again. *)
Lemma found_is_not_inserted d s pub pubid s1 :
  clean (dbcon s) →
  prepare d (get_cursor s) = Some pub →
  assign_pubid pub (get_cursor s) = (Returned (false, pubid), s1) →
  publications (file (dbcon (save_publication d s).2))
  = publications (file (dbcon s))
  ∧ total_records (save_publication d s).2 = total_records s.
Proof.
  intros Hc Hp Ha. rewrite (save_publication_eq d s pub false pubid s1 Hc Hp Ha).
  pose proof (assign_pubid_state pub (get_cursor s)) as (_ & _ & Ht).
  rewrite Ha in Ht. cbn [snd] in Ht.
  destruct (get_cursor_frame s) as [_ Ht0].
  unfold save_statements. cbn [mbind option_bind].
  destruct (0 <? current_level (crawl s)).
  - destruct (insert_edge _ _ _) as [t|] eqn:E; cbn; [|split; [done|congruence]].
    apply insert_edge_spec in E as (? & ? & _ & _ & _ & _ & -> & _).
    split; [done|congruence].
  - cbn. split; [done|congruence].
Qed.

(** A publication that is not found gets the key, an underscore and the
    record count on ten digits; once its row is committed the count has
    grown by one. *)
Lemma new_pubid_is_key_and_count pub s new_pub pubid s1 bib :
  assign_pubid pub s = (Returned (new_pub, pubid), s1) →
  pub !! "bibtexkey" = Some bib →
  new_pub = true →
  pubid = bib +:+ "_" +:+ Num.pad10 (total_records s).
Proof.
  unfold assign_pubid. intros Ha Hb ->. rewrite Hb in Ha.
  destruct (pub !! "title") as [title|]; [|done].
  destruct (pub !! "author") as [author|]; [|done].
  pose proof (get_existing_pub_id_state bib title author s) as (_ & _ & Ht).
  destruct (get_existing_pub_id bib title author s) as [[p|e] s']; [|done].
  cbn [snd] in Ht. injection Ha as Hn <- <-. by rewrite Hn, Ht.
Qed.

Lemma new_row_counts d s pub pubid s1 :
  clean (dbcon s) →
  prepare d (get_cursor s) = Some pub →
  assign_pubid pub (get_cursor s) = (Returned (true, pubid), s1) →
  (save_publication d s).1 = Returned true →
  total_records (save_publication d s).2 = total_records s + 1
  ∧ ∃ r : row, publications (file (dbcon (save_publication d s).2))
               = publications (file (dbcon s)) ++ [r]
               ∧ r !! "pubid" = Sql.text1 pubid.
Proof.
  intros Hc Hp Ha. rewrite (save_publication_eq d s pub true pubid s1 Hc Hp Ha).
  pose proof (assign_pubid_state pub (get_cursor s)) as (_ & _ & Ht).
  rewrite Ha in Ht. cbn [snd] in Ht.
  destruct (get_cursor_frame s) as [_ Ht0].
  destruct (save_statements _ _ _ _ _ _) as [t|] eqn:E; [|done]. intros _.
  cbn. split; [lia|].
  unfold save_statements in E.
  destruct (insert_publication _ _) as [t1|] eqn:E1; [|done]. cbn in E.
  apply insert_publication_spec in E1 as (r & Hr & _ & _ & Hv & _).
  destruct (Hv "pubid" pubid) as (v' & Hv1 & Hv2); [by rewrite lookup_insert_eq|].
  exists r. split; [|congruence].
  destruct (0 <? current_level (crawl s)); [|congruence].
  apply insert_edge_spec in E as (? & ? & _ & _ & _ & _ & -> & _). done.
Qed.

(** A record as the service exports it: the umlauts of title and author
    are written with a double quote. *)
Definition umlaut_block : string :=
  "@article{muller2010uber,
title={{\" +:+ Py.dq +:+ "U}ber Graphen},
author={M{\" +:+ Py.dq +:+ "u}ller, H}
}".

Definition umlaut_record : dict :=
  <["cites" := "9"]> (<["citedby" := "5"]> (<["related" := ""]>
    (bibtex2dic umlaut_block))).

(** C7 at the failing input. The record is saved, with the [pubid]
    "muller2010uber_0000000000". When the same record comes again none of
    the three look-ups finds its row: the stored title and author have
    their double quotes doubled by [quote_identifier], while the look-ups
    compare with the text as it was. A second [pubid] is made up, the
    insert breaks the primary key, and [save_publication] answers [False];
    one row remains. *)
Theorem C7_umlaut_record_is_not_found_again :
  let s := at_level_one [] in
  let s1 := (save_publication umlaut_record s).2 in
  let again pub := (assign_pubid pub (get_cursor s1)).1 in
  (save_publication umlaut_record s).1 = Returned true
  ∧ (publications (file (dbcon s1)) ≫= (λ r, option_list (r !! "pubid")))
    = ["muller2010uber_0000000000"]
  ∧ again <$> prepare umlaut_record (get_cursor s1)
    = Some (Returned (true, "muller2010uber_0000000001"))
  ∧ (save_publication umlaut_record s1).1 = Returned false
  ∧ length (publications (file (dbcon (save_publication umlaut_record s1).2)))
    = 1%nat.
Proof. vm_compute. repeat split; reflexivity. Qed.

End UpsertFacts.

(** ** CrawlStateMachine *)

Section ResumeFacts.

Variable normalvariate : Z → Q.

Lemma do_continue_crawl s : crawl (do_continue_data_collection s).2 = crawl s.
Proof.
  unfold do_continue_data_collection.
  destruct (Sql.by_rowid _ _) as [r|]; [|done]. cbn [crawl set_dbcon].
  match goal with
  | |- context [get_existing_pub_id ?b ?t ?a ?x] =>
      pose proof (get_existing_pub_id_state b t a x) as (_ & (_ & Hc & _) & _);
      destruct (get_existing_pub_id b t a x) as [[pb|e] s']
  end; cbn in *; done.
Qed.

(** A resumption that goes through asks for the listing of the parent at
    [current_row], from the offset [progress] on. *)
Lemma do_continue_request s :
  (do_continue_data_collection s).1 = Returned () →
  ∃ r, Sql.by_rowid (current_row (crawl s) + 1) (publications (file (dbcon s)))
       = Some r
    ∧ loads (fetch (do_continue_data_collection s).2)
      = listing_url (column "cites" r) (progress (crawl s)) :: loads (fetch s)
    ∧ ss (fetch (do_continue_data_collection s).2) = "next".
Proof.
  unfold do_continue_data_collection. cbn [crawl set_dbcon dbcon Con.open Con.view con file default].
  destruct (Sql.by_rowid _ _) as [r|]; [|done]. intros H. exists r. split; [done|].
  match goal with
  | |- context [get_existing_pub_id ?b ?t ?a ?x] =>
      pose proof (get_existing_pub_id_state b t a x)
        as (_ & (_ & Hc & _ & _ & Hf & _) & _);
      destruct (get_existing_pub_id b t a x) as [[pb|e] s']
  end; [|done].
  cbn in Hc, Hf |- *. rewrite Hc, Hf. done.
Qed.

Lemma dump_papers_to_db_eq s :
  dump_papers_to_db s
  = match save_each flush_messages (to_be_dumped s)
            (logger INFO "Writing articles into the DB" s) with
    | (Raised e, s') => (Raised e, s')
    | (Returned _, s') => (Returned (), dump_scrape_progress s')
    end.
Proof. done. Qed.

(** What the record at the head of a flush committed is there at the end
    of the flush. *)
Lemma save_each_head msgs d l s :
  clean (dbcon s) →
  extends (file (dbcon (save_publication d s).2))
    (file (dbcon (save_each msgs (d :: l) s).2)).
Proof.
  intros Hc. cbn [save_each].
  destruct (save_publication_atomic d s Hc) as (Hc1 & _).
  destruct (save_publication d s) as [[b|e] s1]; cbn [fst snd] in *.
  - by destruct (save_each_atomic msgs l s1 Hc1) as (_ & ? & _).
  - pose proof (log_errors_state msgs s1) as (Hd & _).
    assert (Hc' : clean (dbcon (foldl (λ s m, logger ERROR m s) s1 msgs)))
      by (by rewrite Hd).
    destruct (save_each_atomic msgs l _ Hc') as (_ & He & _). rewrite Hd in He.
    destruct e; try done; apply extends_refl.
Qed.

(** The object when the handler for a detected block enters
    [dump_papers_to_db]: the time-out timers are stopped, the guard has
    classified the page, and the connection is open. *)
Definition flush_start (p : page) (s : Citenet) : Citenet :=
  let s := on_fetch (set_timeout_retry_timer None) s in
  let s := on_fetch (set_error_timer None) s in
  let s := on_guard (set_timer None) s in
  let s := (detect_captcha normalvariate p s).2 in
  let s := on_fetch (set_working false) s in
  logger INFO "Writing articles into the DB" (set_dbcon (Con.open (dbcon s)) s).

(** The handler on a page of one of the three confirmed classes. *)
Lemma loadFinished_block (p : page) (s : Citenet) :
  was_paused (fetch s) = false →
  classify p = Captcha ∨ classify p = Block ∨ classify p = Forbidden →
  loadFinished normalvariate true p s
  = match to_be_dumped s with
    | [] =>
        (Returned false,
         on_fetch (set_working false)
           (detect_captcha normalvariate p
              (on_guard (set_timer None)
                 (on_fetch (set_error_timer None)
                    (on_fetch (set_timeout_retry_timer None) s)))).2)
    | _ :: _ =>
        match save_each flush_messages (to_be_dumped s) (flush_start p s) with
        | (Raised e, s') => (Raised e, s')
        | (Returned _, s') =>
            let s' := set_to_be_dumped [] (dump_scrape_progress s') in
            (Returned false, set_dbcon (Con.close (dbcon s')) s')
        end
    end.
Proof.
  intros Hp Hcl. unfold loadFinished, flush_start. rewrite Hp. cbn [negb].
  match goal with
  | |- context [detect_captcha normalvariate p ?x] =>
      pose proof (detect_captcha_state normalvariate p x) as [Hfr Hr];
      destruct (detect_captcha normalvariate p x) as [inv sd]
  end.
  cbn [fst snd] in *. destruct Hfr as (_ & _ & _ & _ & _ & _ & _ & _ & Hb).
  cbn in Hb.
  assert (is_Some inv) as [x ->] by (destruct Hcl as [E|[E|E]]; rewrite E in Hr; tauto).
  cbn [to_be_dumped on_fetch]. rewrite Hb.
  destruct (to_be_dumped s) as [|d l] eqn:Eb; [done|].
  rewrite dump_papers_to_db_eq. cbn [to_be_dumped set_dbcon on_fetch].
  rewrite Hb. by destruct (save_each _ _ _) as [[[]|e] s'].
Qed.

(** C8. A completion classified as captcha, block or forbidden leaves
    the back-off timer as the only timer armed and does not touch the
    cursor. When the handler returns, the pending list is empty and the
    loop of the flush has gone through the whole batch, record after
    record; what the save of each record committed is in the store. When
    an exception cuts the flush short, the batch is still pending. The
    wake-up of the timer leaves the cursor as it was, and a wake-up that
    goes through asks for the listing of the same parent row from the same
    offset [progress]. *)
Theorem C8_block_flushes_then_resumes (p : page) (s : Citenet) :
  was_paused (fetch s) = false →
  clean (dbcon s) →
  classify p = Captcha ∨ classify p = Block ∨ classify p = Forbidden →
  let r := loadFinished normalvariate true p s in
  let s0 := flush_start p s in
  (is_Some (timer (guard r.2)) ∧ error_timer (fetch r.2) = None
   ∧ timeout_retry_timer (fetch r.2) = None)
  ∧ crawl r.2 = crawl s
  ∧ (r.1 = Returned false →
     to_be_dumped r.2 = []
     ∧ ∃ s2, save_each flush_messages (to_be_dumped s) s0 = (Returned (), s2)
         ∧ publications (file (dbcon r.2)) = publications (file (dbcon s2))
         ∧ citationrelationship (file (dbcon r.2))
           = citationrelationship (file (dbcon s2)))
  ∧ (∀ l1 d l2,
       to_be_dumped s = l1 ++ d :: l2 →
       (save_each flush_messages l1 s0).1 = Returned () →
       let sd := (save_each flush_messages l1 s0).2 in
       publications (file (dbcon (save_publication d sd).2))
         `prefix_of` publications (file (dbcon r.2))
       ∧ citationrelationship (file (dbcon (save_publication d sd).2))
         `prefix_of` citationrelationship (file (dbcon r.2)))
  ∧ (r.1 ≠ Returned false → to_be_dumped r.2 = to_be_dumped s)
  ∧ crawl (timer_wakeup r.2).2 = crawl s
  ∧ ((timer_wakeup r.2).1 = Returned () →
     ∃ row,
       Sql.by_rowid (current_row (crawl s) + 1) (publications (file (dbcon r.2)))
       = Some row
       ∧ loads (fetch (timer_wakeup r.2).2)
         = listing_url (column "cites" row) (progress (crawl s)) :: loads (fetch s)
       ∧ ss (fetch (timer_wakeup r.2).2) = "next").
Proof.
  intros Hp Hc Hcl r s0.
  (* the wake-up, from what the handler leaves *)
  assert (Hwake : crawl r.2 = crawl s → loads (fetch r.2) = loads (fetch s) →
            crawl (timer_wakeup r.2).2 = crawl s
            ∧ ((timer_wakeup r.2).1 = Returned () →
               ∃ row,
                 Sql.by_rowid (current_row (crawl s) + 1)
                   (publications (file (dbcon r.2))) = Some row
                 ∧ loads (fetch (timer_wakeup r.2).2)
                   = listing_url (column "cites" row) (progress (crawl s))
                       :: loads (fetch s)
                 ∧ ss (fetch (timer_wakeup r.2).2) = "next")).
  { intros Hcr Hl. unfold timer_wakeup. rewrite do_continue_crawl.
    cbn [crawl logger]. split; [done|].
    intros Hw. apply do_continue_request in Hw as (row & H1 & H2 & H3).
    cbn [crawl logger dbcon fetch] in H1, H2. rewrite Hcr in H1, H2.
    rewrite Hl in H2. by exists row. }
  subst r. rewrite (loadFinished_block p s Hp Hcl) in *.
  subst s0. unfold flush_start in *.
  match goal with
  | |- context [detect_captcha normalvariate p ?x] =>
      pose proof (detect_captcha_state normalvariate p x) as [Hfr Hr];
      destruct (detect_captcha normalvariate p x) as [inv sd]
  end.
  cbn [fst snd] in Hfr, Hr, Hwake |- *.
  destruct Hfr as (H1 & _ & _ & H4 & H5 & H6 & H7 & _ & H9).
  assert (is_Some (timer (guard sd))) as Ht
    by (destruct Hcl as [E|[E|E]]; rewrite E in Hr; tauto).
  cbn [crawl fetch dbcon total_records parent_bibtex to_be_dumped
       on_guard on_fetch] in H1, H4, H5, H6, H7, H9.
  set (sw := on_fetch (set_working false) sd) in *.
  set (s0 := logger INFO "Writing articles into the DB"
               (set_dbcon (Con.open (dbcon sw)) sw)) in *.
  assert (Hc0 : clean (dbcon s0)) by (right; reflexivity).
  assert (Hf0 : file (dbcon s0) = file (dbcon s)) by (cbn; by rewrite H5).
  destruct (to_be_dumped s) as [|d l] eqn:Eb.
  - (* nothing is pending *)
    cbn [fst snd] in *.
    assert (Hcr : crawl sw = crawl s) by done.
    assert (Hl : loads (fetch sw) = loads (fetch s)) by (cbn; by rewrite H4).
    destruct (Hwake Hcr Hl) as [W1 W2].
    split; [by rewrite (eq_refl : guard sw = guard sd); cbn; rewrite H4|].
    split; [done|]. split.
    { intros _. split; [by cbn; rewrite H9|]. exists s0. split; [done|].
      cbn. by rewrite H5. }
    split. { intros [|??] ? ? ?; discriminate. }
    split; [done|]. split; [done|]. exact W2.
  - (* the batch [d :: l] is pending *)
    destruct (save_each_atomic flush_messages (d :: l) s0 Hc0)
      as (Hc2 & He2 & _ & Hfr2).
    assert (Hhead : ∀ l1 d' l2, d :: l = l1 ++ d' :: l2 →
              (save_each flush_messages l1 s0).1 = Returned () →
              extends
                (file (dbcon (save_publication d'
                                (save_each flush_messages l1 s0).2).2))
                (file (dbcon (save_each flush_messages (d :: l) s0).2))).
    { intros l1 d' l2 El Hl1.
      assert (Hcd : clean (dbcon (save_each flush_messages l1 s0).2)).
      { by destruct (save_each_atomic flush_messages l1 s0 Hc0) as (? & _). }
      pose proof (save_each_head flush_messages d' l2 _ Hcd) as Hh.
      rewrite El, save_each_app.
      destruct (save_each flush_messages l1 s0) as [[[]|e] s1']; [done|].
      discriminate Hl1. }
    destruct (save_each flush_messages (d :: l) s0) as [[[]|e] s2] eqn:E2;
      cbn [fst snd] in *.
    + (* the flush went through *)
      destruct (dump_scrape_progress_tables s2 Hc2) as (_ & Hp2 & Hq2 & Hfr3).
      remember (dump_scrape_progress s2) as s3 eqn:Es3. clear Es3.
      destruct Hfr2 as (G1 & G2 & _ & _ & G5 & _).
      destruct Hfr3 as (K1 & K2 & _ & _ & K5 & _).
      assert (Hcr : crawl (set_dbcon (Con.close (dbcon (set_to_be_dumped [] s3)))
                             (set_to_be_dumped [] s3)) = crawl s).
      { cbn. rewrite K2, G2. done. }
      assert (Hl : loads (fetch (set_dbcon (Con.close (dbcon (set_to_be_dumped [] s3)))
                                   (set_to_be_dumped [] s3))) = loads (fetch s)).
      { cbn. rewrite K5, G5. cbn. by rewrite H4. }
      destruct (Hwake Hcr Hl) as [W1 W2].
      split. { cbn. rewrite K1, G1, K5, G5. cbn. by rewrite H4. }
      split; [done|]. split.
      { intros _. split; [done|]. exists s2. by cbn; rewrite Hp2, Hq2. }
      split.
      { intros l1 d' l2 El Hl1. destruct (Hhead l1 d' l2 El Hl1) as (X1 & X2 & _).
        cbn. rewrite Hp2, Hq2. done. }
      split; [done|]. split; [done|]. exact W2.
    + (* an exception has cut the flush short *)
      destruct Hfr2 as (G1 & G2 & _ & _ & G5 & _ & _ & G8).
      assert (Hcr : crawl s2 = crawl s) by (by rewrite G2).
      assert (Hl : loads (fetch s2) = loads (fetch s))
        by (rewrite G5; cbn; by rewrite H4).
      destruct (Hwake Hcr Hl) as [W1 W2].
      split. { rewrite G1, G5. cbn. by rewrite H4. }
      split; [done|]. split; [done|]. split.
      { intros l1 d' l2 El Hl1. by destruct (Hhead l1 d' l2 El Hl1) as (X1 & X2 & _). }
      split. { intros _. rewrite G8. cbn. by rewrite H9. }
      split; [done|]. exact W2.
Qed.

End ResumeFacts.

Section ResumeExample.

(** A seed publication with nothing pending on its listing. *)
Definition seed_record : dict :=
  <["bibtexkey" := "seed"]> (<["title" := "S"]> (<["author" := "A"]>
    (<["cites" := "17"]> (<["citedby" := "57"]> {["related" := ""]})))).

(** A crawl of the seed at level 1, the record [record_k] pending. *)
Definition blocked_crawl : Citenet :=
  set_to_be_dumped [record_k]
    (set_parent "17" "seed_0000000000"
       (create_db "graphs" "3" "3" "3" true [seed_record] initial).2).

(** The theorem on a captcha met while [record_k] is pending. *)
Lemma C8_block_flushes_then_resumes_witness :
  let r := loadFinished (λ _, 0%Q) true captcha_page blocked_crawl in
  was_paused (fetch blocked_crawl) = false
  ∧ clean (dbcon blocked_crawl)
  ∧ classify captcha_page = Captcha
  ∧ r.1 = Returned false
  ∧ to_be_dumped r.2 = []
  ∧ crawl r.2 = crawl blocked_crawl
  ∧ (timer_wakeup r.2).1 = Returned ()
  ∧ crawl (timer_wakeup r.2).2 = crawl blocked_crawl.
Proof.
  cbv zeta.
  assert (H1 : was_paused (fetch blocked_crawl) = false) by (vm_compute; reflexivity).
  assert (H2 : clean (dbcon blocked_crawl)) by (right; vm_compute; reflexivity).
  assert (H3 : classify captcha_page = Captcha) by (vm_compute; reflexivity).
  destruct (C8_block_flushes_then_resumes (λ _, 0%Q) captcha_page blocked_crawl
              H1 H2 (or_introl H3)) as (_ & A & B & _ & _ & C & _).
  assert (Hr : (loadFinished (λ _, 0%Q) true captcha_page blocked_crawl).1
               = Returned false) by (vm_compute; reflexivity).
  split; [exact H1|]. split; [exact H2|]. split; [exact H3|].
  split; [exact Hr|]. split; [exact (proj1 (B Hr))|]. split; [exact A|].
  split; [vm_compute; reflexivity|exact C].
Defined.

End ResumeExample.

(** ** The progress header *)

Section HeaderFacts.

(** No character of [s] is [q]. *)
Fixpoint avoids (q : ascii) (s : string) : bool :=
  match s with
  | "" => true
  | String c s' => negb (Ascii.eqb c q) && avoids q s'
  end.

(** A text without the quote character is the body of a literal that
    denotes it. *)
Lemma unquote_avoids q s : avoids q s = true → Sql.unquote q s = Some s.
Proof.
  induction s as [|c s IH]; [done|]. cbn.
  destruct (Ascii.eqb c q); [done|]. cbn. intros H. by rewrite IH.
Qed.

Lemma avoids_app q s1 s2 :
  avoids q (s1 +:+ s2) = avoids q s1 && avoids q s2.
Proof.
  induction s1 as [|c s1 IH]; [done|]. simpl. rewrite IH. by rewrite andb_assoc.
Qed.

Lemma avoids_cons q c s :
  c ≠ q → avoids q s = true → avoids q (String c s) = true.
Proof.
  intros Hc Hs. unfold avoids; fold avoids.
  by rewrite (proj2 (Ascii.eqb_neq _ _) Hc), Hs.
Qed.

Lemma pretty_N_go_avoids q x : ∀ s,
  (∀ d, pretty_N_char d ≠ q) → avoids q s = true →
  avoids q (pretty_N_go x s) = true.
Proof.
  induction (N.lt_wf_0 x) as [x _ IH]. intros s Hq Hs.
  assert (x = 0 ∨ 0 < x)%N as [->|Hx] by lia.
  - by rewrite pretty_N_go_0.
  - rewrite pretty_N_go_step by done. apply IH; [by apply N.div_lt|done|].
    by apply avoids_cons.
Qed.

(** The decimal numeral of an integer holds digits and at most a sign. *)
Lemma str_avoids q n :
  (∀ d, pretty_N_char d ≠ q) → q ≠ "-"%char → avoids q (Num.str n) = true.
Proof.
  intros Hq Hm. unfold Num.str, pretty, pretty_Z.
  assert (Hd : ∀ x : N, avoids q (pretty_N x) = true).
  { intros x. unfold pretty_N. case_decide.
    - apply avoids_cons; [apply (Hq 0%N)|done].
    - by apply pretty_N_go_avoids. }
  destruct n as [|p|p].
  - apply avoids_cons; [apply (Hq 0%N)|done].
  - apply Hd.
  - change (avoids q ("-" +:+ pretty_N (N.pos p)) = true).
    rewrite avoids_app, Hd, andb_true_r. apply avoids_cons; [congruence|done].
Qed.

Lemma text2_str n : Sql.text2 (Num.str n) = Some (Num.str n).
Proof.
  apply unquote_avoids, str_avoids; [|done].
  intros d. unfold pretty_N_char. by repeat case_match.
Qed.

(** [SELECT value FROM header WHERE key = k], first row. *)
Fixpoint header_value (k : string) (h : list (string * string)) : option string :=
  match h with
  | [] => None
  | (k', v) :: h' => if String.eqb k' k then Some v else header_value k h'
  end.

Lemma update_header_cons k v k0 v0 h :
  Sql.update_header k v ((k0, v0) :: h)
  = (if String.eqb k0 k then (k0, v) else (k0, v0)) :: Sql.update_header k v h.
Proof. done. Qed.

Lemma header_value_update_eq k v h :
  is_Some (header_value k h) → header_value k (Sql.update_header k v h) = Some v.
Proof.
  induction h as [|[k' v'] h IH]; [by intros [? ?]|].
  rewrite update_header_cons. cbn [header_value].
  destruct (String.eqb k' k) eqn:E; cbn [header_value]; rewrite E; [done|exact IH].
Qed.

Lemma header_value_update_ne k k' v h :
  k ≠ k' → header_value k' (Sql.update_header k v h) = header_value k' h.
Proof.
  intros Hne. induction h as [|[k0 v0] h IH]; [done|].
  rewrite update_header_cons. cbn [header_value].
  destruct (String.eqb k0 k) eqn:E; cbn [header_value]; [|by rewrite IH].
  apply String.eqb_eq in E. subst k0.
  destruct (String.eqb k k') eqn:E'; [by apply String.eqb_eq in E'|done].
Qed.

End HeaderFacts.

Section CursorFacts.

(** The invariants of the crawl state. *)
Definition cursor_ok (c : CrawlState) : Prop :=
  (0 ≤ current_row c ∧ current_row c < level_limit c)
  ∧ (0 ≤ current_level c ∧ current_level c ≤ max_level c)
  ∧ (scrape_done c = true ↔ current_level c = max_level c).

(** The header rows of [t] print the cursor [c]. *)
Definition persisted (t : tables) (c : CrawlState) : Prop :=
  header_value "current_row" (header t) = Some (Num.str (current_row c))
  ∧ header_value "current_level" (header t) = Some (Num.str (current_level c))
  ∧ header_value "progress" (header t) = Some (Num.str (progress c))
  ∧ header_value "level_limit" (header t) = Some (Num.str (level_limit c))
  ∧ header_value "max_level" (header t) = Some (Num.str (max_level c))
  ∧ header_value "scrape_done" (header t)
    = Some (if scrape_done c then "1" else "0").

(** The persisted crawl state satisfies the invariants. *)
Definition header_ok (t : tables) : Prop :=
  ∃ c, persisted t c ∧ cursor_ok c.

Lemma persisted_header t t' c : header t' = header t → persisted t c → persisted t' c.
Proof. unfold persisted. by intros ->. Qed.

(** [dump_scrape_progress] writes the cursor that is in memory. *)
Lemma dump_scrape_progress_persists s c0 :
  clean (dbcon s) →
  persisted (file (dbcon s)) c0 → max_level c0 = max_level (crawl s) →
  persisted (file (dbcon (dump_scrape_progress s))) (crawl s).
Proof.
  intros Hc (P1 & P2 & P3 & P4 & P5 & P6) Hm. unfold dump_scrape_progress.
  pose proof (get_cursor_clean s Hc) as Hdb.
  destruct (get_cursor_frame s) as [(_ & Hcr & _) _].
  cbn [dbcon set_dbcon]. rewrite Hdb. cbn [Con.execute Con.commit con file fmap option_fmap option_map header].
  rewrite Hcr. unfold persisted. cbn [header].
  repeat split;
    repeat (first [ rewrite header_value_update_ne by done
                  | rewrite header_value_update_eq
                  | by eauto ]).
  by rewrite <- Hm.
Qed.

Lemma get_cursor_con s : is_Some (con (dbcon (get_cursor s))).
Proof. unfold get_cursor. destruct (con (dbcon s)) eqn:E; cbn; rewrite ?E; eauto. Qed.

Lemma insert_header_spec h : ∀ t t',
  insert_header h t = Some t' →
  ∃ h', header t' = header t ++ h'
    ∧ Forall2 (λ kv kv' : string * string,
                 Sql.text2 kv.1 = Some kv'.1 ∧ Sql.text2 kv.2 = Some kv'.2) h h'
    ∧ publications t' = publications t
    ∧ citationrelationship t' = citationrelationship t.
Proof.
  induction h as [|[k v] h IH]; intros t t'; cbn [insert_header].
  - intros [= <-]. exists []. rewrite app_nil_r. repeat split. constructor.
  - destruct (Sql.text2 k) as [k'|] eqn:Ek; [|done].
    destruct (Sql.text2 v) as [v'|] eqn:Ev; [|done]. cbn [mbind option_bind].
    intros H. apply IH in H as (h' & Hh & HF & Hp & He). cbn in Hh, Hp, He.
    exists ((k', v') :: h'). rewrite Hh, <- app_assoc. repeat split; try done.
    by constructor.
Qed.

(** The header that [create_db] commits. *)
Lemma create_db_header q edtPercentPerLevel edtMaxPerLevel edtMaxLevel
    rbtnPercent seedPapers s s' ml :
  Num.int edtMaxLevel = Some ml →
  create_db q edtPercentPerLevel edtMaxPerLevel edtMaxLevel rbtnPercent
    seedPapers s = (Returned true, s') →
  persisted (file (dbcon s'))
    (MkCrawl 1 0 0 (Z.of_nat (length seedPapers)) (ml + 1) false).
Proof.
  intros Hml. unfold create_db. rewrite Hml.
  destruct (quote_identifier q) as [q'|]; [|done].
  match goal with
  | |- context [save_each ?m seedPapers ?x] =>
      assert (Hc1 : clean (dbcon x) ∧ header (file (dbcon x)) = []);
      [|destruct Hc1 as [Hc1 Hh1];
        destruct (save_each_atomic m seedPapers x Hc1) as (Hc2 & (_ & _ & Hh2) & _);
        destruct (save_each m seedPapers x) as [[[]|e] s2]; [|done]]
  end.
  { destruct (get_cursor_con s) as [t Ht].
    cbn [dbcon on_crawl set_dbcon]. unfold Con.execute, Con.commit.
    rewrite Ht. cbn. split; [by right|done]. }
  cbn [fst snd] in Hc2, Hh2. rewrite Hh1 in Hh2.
  destruct (con (dbcon s2)) as [t2|] eqn:Econ; [|done].
  assert (t2 = file (dbcon s2)) as -> by (destruct Hc2; congruence).
  cbn [mbind option_bind].
  destruct (insert_header _ _) as [t|] eqn:Eh; [|done].
  intros [= <-]. cbn [file dbcon on_fetch on_crawl set_dbcon Con.commit con].
  apply insert_header_spec in Eh as (h' & Hh & HF & _). rewrite Hh2 in Hh.
  unfold persisted. rewrite Hh. cbn [app].
  repeat match goal with
         | H : Forall2 _ (_ :: _) _ |- _ =>
             apply Forall2_cons_inv_l in H as ([? ?] & ? & [? ?] & H & ->)
         | H : Forall2 _ [] _ |- _ => apply Forall2_nil_inv_l in H as ->
         end.
  cbn [fst snd] in *. rewrite !text2_str in *.
  repeat match goal with
         | H : Sql.text2 _ = Some _ |- _ => vm_compute in H; injection H as <-
         | H : Some _ = Some _ |- _ => injection H as <-
         end.
  cbn. repeat split.
Qed.

End CursorFacts.

Section CrawlFacts.

Variable normalvariate : Z → Q.

(** A crawl that waits for the listing of the parent at [current_row]: the
    cursor in memory and the persisted one satisfy the invariants, and the
    crawl is not done. *)
Definition awaiting (s : Citenet) : Prop :=
  cursor_ok (crawl s) ∧ scrape_done (crawl s) = false
  ∧ ∃ c, persisted (file (dbcon s)) c ∧ cursor_ok c
         ∧ max_level c = max_level (crawl s).

Lemma cursor_ok_progress c p : cursor_ok c → cursor_ok (set_progress p c).
Proof. done. Qed.

Lemma queue_papers_state ps : ∀ i mp s,
  let r := queue_papers ps i mp s in
  dbcon r.2 = dbcon s ∧ fetch r.2 = fetch s
  ∧ crawl r.2 = set_progress (progress (crawl r.2)) (crawl s).
Proof.
  induction ps as [|p ps IH]; intros i mp s; cbn [queue_papers].
  { cbn. by destruct (crawl s). }
  match goal with
  | |- context [on_crawl ?f ?y] => set (x := y) in *
  end.
  assert (Hx : dbcon x = dbcon s ∧ fetch x = fetch s ∧ crawl x = crawl s)
    by (subst x; by repeat case_match).
  destruct Hx as (Hd & Hf & Hc). clearbody x.
  cbn [crawl on_crawl].
  destruct (mp <=? _).
  - cbn. rewrite Hc. by destruct (crawl s).
  - destruct (IH (S i) mp (on_crawl (set_progress (progress (crawl x) + 1)) x))
      as (Hd' & Hf' & Hc').
    cbn zeta in *. rewrite Hd', Hf', Hc'. cbn. rewrite Hc.
    by destruct (crawl s).
Qed.

Lemma do_continue_file s :
  file (dbcon (do_continue_data_collection s).2) = file (dbcon s).
Proof.
  unfold do_continue_data_collection.
  destruct (Sql.by_rowid _ _) as [r|]; [|done].
  match goal with
  | |- context [get_existing_pub_id ?b ?t ?a ?x] =>
      pose proof (get_existing_pub_id_state b t a x) as (Hd & _);
      destruct (get_existing_pub_id b t a x) as [[pb|e] s']
  end; cbn [snd] in *.
  - cbn. rewrite Hd. done.
  - rewrite Hd. done.
Qed.

(** What [dump_papers] has done when it comes to its last statement. *)
Lemma dump_papers_try_step s :
  awaiting s →
  let r := dump_papers_try s in
  (∃ c, persisted (file (dbcon r.2)) c ∧ cursor_ok c
        ∧ max_level c = max_level (crawl r.2))
  ∧ (current_row (crawl r.2) ≠ current_row (crawl s) → progress (crawl r.2) = 0)
  ∧ fetch r.2 = fetch s
  ∧ (r.1 = Returned () →
     0 ≤ current_row (crawl r.2)
     ∧ (current_row (crawl r.2) < level_limit (crawl r.2)
        ∨ level_limit (crawl r.2)
          = Z.of_nat (length (publications (file (dbcon r.2)))))
     ∧ (0 ≤ current_level (crawl r.2)
        ∧ current_level (crawl r.2) ≤ max_level (crawl r.2))
     ∧ (scrape_done (crawl r.2) = true
        ↔ current_level (crawl r.2) = max_level (crawl r.2))).
Proof.
  intros (Hok & Hnd & c0 & Hp0 & Hok0 & Hm0) r. subst r. unfold dump_papers_try.
  set (so := set_dbcon (Con.open (dbcon s)) s).
  rewrite (get_cursor_open so (file (dbcon s))) by done.
  destruct (max_progress so) as [mp|e].
  2:{ cbn. split; [by exists c0|]. split; [done|]. split; [done|done]. }
  pose proof (queue_papers_state (lpPapers (listing so)) 0 mp so) as (Qd & Qf & Qc).
  destruct (queue_papers (lpPapers (listing so)) 0 mp so) as [i sq].
  cbn [fst snd] in Qd, Qf, Qc.
  assert (Hcq : clean (dbcon sq)) by (rewrite Qd; by right).
  assert (Hfq : file (dbcon sq) = file (dbcon s)) by (by rewrite Qd).
  assert (Hokq : cursor_ok (crawl sq)) by (rewrite Qc; by apply cursor_ok_progress).
  assert (Hfeq : fetch sq = fetch s) by (by rewrite Qf).
  assert (Hmq : max_level (crawl sq) = max_level (crawl s)) by (by rewrite Qc).
  assert (Hrq : current_row (crawl sq) = current_row (crawl s)) by (by rewrite Qc).
  assert (Hlq : current_level (crawl sq) = current_level (crawl s)) by (by rewrite Qc).
  assert (Hlt : current_level (crawl s) < max_level (crawl s)).
  { destruct Hok as (_ & [_ Hle] & Hiff).
    destruct (Z.eq_dec (current_level (crawl s)) (max_level (crawl s))) as [E|E];
      [|lia]. apply Hiff in E. congruence. }
  destruct ((mp <=? progress (crawl sq))
            || ((Z.of_nat i <? 10) && (progress (crawl sq) <? mp))).
  - (* the flush, and the cursor moves on *)
    rewrite dump_papers_to_db_eq.
    assert (Hcl : clean (dbcon (logger INFO "Writing articles into the DB" sq)))
      by done.
    destruct (save_each_atomic flush_messages (to_be_dumped sq) _ Hcl)
      as (Hc2 & (_ & _ & Hh2) & _ & (_ & Hcr2 & _ & _ & Hfe2 & _)).
    cbn [to_be_dumped logger dbcon crawl fetch] in *.
    destruct (save_each flush_messages (to_be_dumped sq) _) as [[[]|e] s2];
      cbn [fst snd] in *.
    + assert (Hp2 : persisted (file (dbcon s2)) c0).
      { apply (persisted_header (file (dbcon s))); [|done]. by rewrite Hh2, Hfq. }
      assert (Hm2 : max_level c0 = max_level (crawl s2)) by congruence.
      pose proof (dump_scrape_progress_persists s2 c0 Hc2 Hp2 Hm2) as Hp3.
      destruct (dump_scrape_progress_tables s2 Hc2)
        as (Hc3 & _ & _ & (_ & Hcr3 & _ & _ & Hfe3 & _)).
      remember (dump_scrape_progress s2) as s3 eqn:Es3. clear Es3.
      assert (Hview : Con.view (dbcon s3) = file (dbcon s3)).
      { unfold Con.view. destruct Hc3 as [->| ->]; done. }
      rewrite Hcr2 in Hp3.
      unfold advance. cbn [crawl on_crawl set_to_be_dumped dbcon set_progress
                           set_current_row current_row level_limit].
      rewrite Hcr3, Hcr2, Hview.
      pose proof Hokq as ([Hr0 Hr1] & [Hl0 Hl1] & Hiff).
      destruct (current_row (crawl sq) + 1 =? level_limit (crawl sq)) eqn:Elim.
      * cbn. rewrite ?Hcr3, ?Hcr2. split; [by exists (crawl sq)|].
        split; [done|]. split; [congruence|]. intros _.
        split; [lia|]. split; [by right|]. split; [lia|].
        apply Z.eqb_eq.
      * cbn. rewrite ?Hcr3, ?Hcr2. split; [by exists (crawl sq)|].
        split; [done|]. split; [congruence|]. intros _. apply Z.eqb_neq in Elim.
        split; [lia|]. split; [left; lia|]. split; [lia|].
        apply Z.eqb_eq.
    + split; [|split; [intros Hne; congruence|split; [congruence|done]]].
      exists c0. split; [|split; [done|congruence]].
      apply (persisted_header (file (dbcon s))); [|done]. by rewrite Hh2, Hfq.
  - (* more of the listing is to come *)
    cbn. destruct Hokq as ([Hr0 Hr1] & [Hl0 Hl1] & Hiff).
    split.
    { exists c0. split; [|split; [done|congruence]].
      apply (persisted_header (file (dbcon s))); [by rewrite Hfq|done]. }
    split; [intros Hne; congruence|]. split; [done|]. intros _.
    split; [lia|]. split; [left; lia|]. split; [lia|]. apply Z.eqb_eq.
Qed.

Lemma do_continue_was_paused s :
  was_paused (fetch (do_continue_data_collection s).2) = was_paused (fetch s).
Proof.
  unfold do_continue_data_collection.
  destruct (Sql.by_rowid _ _) as [r|]; [|done].
  match goal with
  | |- context [get_existing_pub_id ?b ?t ?a ?x] =>
      pose proof (get_existing_pub_id_state b t a x)
        as (_ & (_ & _ & _ & _ & Hf & _) & _);
      destruct (get_existing_pub_id b t a x) as [[pb|e] s']
  end; cbn in Hf |- *; by rewrite Hf.
Qed.

Lemma by_rowid_bound n (t : list row) r :
  Sql.by_rowid n t = Some r → 0 < n ∧ n ≤ Z.of_nat (length t).
Proof.
  unfold Sql.by_rowid. destruct (n <=? 0) eqn:E; [done|].
  intros H. apply lookup_lt_Some in H. lia.
Qed.

(** [dump_papers], from one wait for a listing to the next. *)
Lemma dump_papers_step s :
  awaiting s → was_paused (fetch s) = false →
  let r := dump_papers s in
  header_ok (file (dbcon r.2))
  ∧ (current_row (crawl r.2) ≠ current_row (crawl s) → progress (crawl r.2) = 0)
  ∧ (r.1 = Returned () → scrape_done (crawl r.2) = false →
     awaiting r.2 ∧ was_paused (fetch r.2) = false).
Proof.
  intros Ha Hp r. subst r. unfold dump_papers.
  pose proof (dump_papers_try_step s Ha) as ((c & Hc1 & Hc2 & Hc3) & Hreset & Hfe & Hret).
  destruct (dump_papers_try s) as [[[]|e] s1]; cbn [fst snd] in *.
  2:{ split; [by exists c|]. split; done. }
  destruct (Hret eq_refl) as (Hr0 & Hr1 & Hl & Hiff).
  destruct (scrape_done (crawl s1)) eqn:Ed.
  { cbn. split; [by exists c|]. split; [done|]. intros _. by rewrite Ed. }
  rewrite Hfe, Hp.
  pose proof (do_continue_crawl s1) as Dc.
  pose proof (do_continue_file s1) as Df.
  pose proof (do_continue_was_paused s1) as Dp.
  pose proof (do_continue_request s1) as Dr.
  destruct (do_continue_data_collection s1) as [[[]|e] s2]; cbn [fst snd] in *.
  2:{ rewrite Df, Dc. split; [by exists c|]. split; done. }
  unfold awaiting. rewrite Df, Dc, Dp. split; [by exists c|]. split; [done|].
  intros _ _. split; [|congruence].
  destruct (Dr eq_refl) as (row & Hrow & _).
  apply by_rowid_bound in Hrow.
  split; [|split; [done|by exists c]].
  unfold cursor_ok. rewrite Ed.
  split; [|split; [done|done]]. split; [done|]. destruct Hr1; lia.
Qed.

(** A flush writes the cursor that is in memory; a flush that an exception
    cuts short leaves the header as it was. *)
Lemma dump_papers_to_db_persists s :
  awaiting s → clean (dbcon s) →
  let r := dump_papers_to_db s in
  crawl r.2 = crawl s
  ∧ (r.1 = Returned () → persisted (file (dbcon r.2)) (crawl s))
  ∧ awaiting r.2.
Proof.
  intros (Hok & Hnd & c0 & Hp0 & Hok0 & Hm0) Hc r. subst r.
  rewrite dump_papers_to_db_eq.
  assert (Hcl : clean (dbcon (logger INFO "Writing articles into the DB" s)))
    by done.
  destruct (save_each_atomic flush_messages (to_be_dumped s) _ Hcl)
    as (Hc2 & (_ & _ & Hh2) & _ & (_ & Hcr2 & _)).
  cbn [to_be_dumped logger dbcon crawl] in *.
  destruct (save_each flush_messages (to_be_dumped s) _) as [[[]|e] s2];
    cbn [fst snd] in *.
  - assert (Hp2 : persisted (file (dbcon s2)) c0)
      by (by apply (persisted_header (file (dbcon s)))).
    assert (Hm2 : max_level c0 = max_level (crawl s2)) by congruence.
    pose proof (dump_scrape_progress_persists s2 c0 Hc2 Hp2 Hm2) as Hp3.
    destruct (dump_scrape_progress_tables s2 Hc2) as (_ & _ & _ & (_ & Hcr3 & _)).
    rewrite Hcr2 in Hp3. unfold awaiting. rewrite Hcr3, Hcr2.
    split; [done|]. split; [done|]. split; [done|]. split; [done|].
    by exists (crawl s).
  - unfold awaiting. rewrite Hcr2. split; [done|]. split; [done|].
    split; [done|]. split; [done|]. exists c0.
    split; [by apply (persisted_header (file (dbcon s)))|done].
Qed.

(** The completion handler keeps the cursor and the invariants. *)
Lemma loadFinished_keeps ok p s :
  awaiting s →
  let r := loadFinished normalvariate ok p s in
  crawl r.2 = crawl s ∧ awaiting r.2.
Proof.
  intros Ha r. subst r. unfold loadFinished.
  destruct (was_paused (fetch s)); [done|].
  destruct (negb ok); [done|].
  match goal with
  | |- context [detect_captcha normalvariate p ?x] =>
      pose proof (detect_captcha_state normalvariate p x) as [Hfr _];
      destruct (detect_captcha normalvariate p x) as [inv sd]
  end.
  cbn [fst snd] in Hfr. destruct Hfr as (H1 & _ & _ & _ & H5 & _).
  cbn [crawl dbcon on_guard on_fetch] in H1, H5.
  assert (Hsd : awaiting sd) by (unfold awaiting; by rewrite H1, H5).
  destruct inv as [x|]; [|by unfold awaiting; cbn; rewrite H1, H5].
  destruct (to_be_dumped (on_fetch (set_working false) sd)) as [|d l];
    [by unfold awaiting; cbn; rewrite H1, H5|].
  match goal with
  | |- context [dump_papers_to_db ?x] =>
      assert (Hax : awaiting x) by (unfold awaiting; cbn; by rewrite H1, H5);
      assert (Hcx : clean (dbcon x)) by (by right);
      destruct (dump_papers_to_db_persists x Hax Hcx) as (Hcr & _ & Ha');
      destruct (dump_papers_to_db x) as [[[]|e] s3]
  end; cbn [fst snd crawl on_fetch set_dbcon] in *.
  - unfold awaiting in *. cbn. by rewrite Hcr, H1 in *.
  - by rewrite Hcr, H1 in *.
Qed.

(** The wake-up of the back-off timer keeps them too. *)
Lemma timer_wakeup_keeps s :
  awaiting s → crawl (timer_wakeup s).2 = crawl s ∧ awaiting (timer_wakeup s).2.
Proof.
  intros Ha. unfold timer_wakeup, awaiting in *.
  rewrite do_continue_crawl, do_continue_file. done.
Qed.

End CrawlFacts.

Section CrawlStateInvariants.

Variable normalvariate : Z → Q.

(** C9. The persisted crawl state satisfies the invariants at creation and
    after every flush.
    - [create_db], given at least one seed and a maximal level of at least 1
      (the range of its validator), commits a header that prints the cursor
      (level 1, row 0, progress 0, as many rows as seeds, not done), which
      satisfies [0 <= current_row < level_limit],
      [0 <= current_level <= max_level] and
      [scrape_done <-> current_level = max_level]; a crawl that has read
      this header is [awaiting].
    - A flush writes the cursor that is in memory, and in a crawl that is
      [awaiting] this cursor satisfies the invariants.
    - The invariants go on from one wait for a listing to the next:
      through [dump_papers] when it returns with the crawl not done, through
      the completion handler and through the wake-up of the back-off timer;
      whatever [dump_papers] does, the header it leaves satisfies them.
    - Whenever [dump_papers] changes [current_row] it puts [progress] to 0. *)
Theorem C9_crawl_state_invariants :
  (∀ q edtPercentPerLevel edtMaxPerLevel edtMaxLevel rbtnPercent seedPapers
     s s' ml,
     Num.int edtMaxLevel = Some ml → 1 ≤ ml → seedPapers ≠ [] →
     create_db q edtPercentPerLevel edtMaxPerLevel edtMaxLevel rbtnPercent
       seedPapers s = (Returned true, s') →
     let c := MkCrawl 1 0 0 (Z.of_nat (length seedPapers)) (ml + 1) false in
     persisted (file (dbcon s')) c ∧ cursor_ok c ∧ progress c = 0
     ∧ ∀ s'', crawl s'' = c → file (dbcon s'') = file (dbcon s') → awaiting s'')
  ∧ (∀ s, awaiting s → clean (dbcon s) →
       (dump_papers_to_db s).1 = Returned () →
       persisted (file (dbcon (dump_papers_to_db s).2)) (crawl s)
       ∧ cursor_ok (crawl s))
  ∧ (∀ s, awaiting s → was_paused (fetch s) = false →
       let r := dump_papers s in
       header_ok (file (dbcon r.2))
       ∧ (current_row (crawl r.2) ≠ current_row (crawl s) →
          progress (crawl r.2) = 0)
       ∧ (r.1 = Returned () → scrape_done (crawl r.2) = false →
          awaiting r.2 ∧ was_paused (fetch r.2) = false))
  ∧ (∀ ok p s, awaiting s →
       let r := loadFinished normalvariate ok p s in
       crawl r.2 = crawl s ∧ awaiting r.2)
  ∧ (∀ s, awaiting s →
       crawl (timer_wakeup s).2 = crawl s ∧ awaiting (timer_wakeup s).2).
Proof.
  split; [|split; [|split; [|split]]].
  - intros q e1 e2 e3 pct seeds s s' ml Hml H1 Hs Hc c.
    pose proof (create_db_header _ _ _ _ _ _ _ _ _ Hml Hc) as Hp. fold c in Hp.
    assert (Hok : cursor_ok c).
    { unfold cursor_ok, c. cbn [current_row level_limit current_level
                                 max_level scrape_done].
      destruct seeds; [done|]. cbn [length].
      split; [lia|]. split; [lia|]. split; [discriminate|lia]. }
    split; [done|]. split; [done|]. split; [done|].
    intros s'' E1 E2. unfold awaiting. rewrite E1, E2.
    split; [done|]. split; [done|]. by exists c.
  - intros s Ha Hc Hr.
    destruct (dump_papers_to_db_persists s Ha Hc) as (_ & Hp & _).
    split; [by apply Hp|]. by destruct Ha.
  - intros s Ha Hp. by apply dump_papers_step.
  - intros ok p s Ha. by apply loadFinished_keeps.
  - intros s Ha. by apply timer_wakeup_keeps.
Qed.

End CrawlStateInvariants.

Section CrawlExample.

Definition k_block : string :=
  "@article{k,
  title={T},
  author={A}
}".

(** The crawl of [seed_record] once the listing of the seed has been
    gathered: one citing record. *)
Definition listed_crawl : Citenet :=
  let s := set_parent "17" "seed_0000000000"
             (create_db "graphs" "3" "3" "3" true [seed_record] initial).2 in
  MkCitenet (guard s) (crawl s) (sampling s)
    (MkListing [k_block] [("9", "5")] [""]) (fetch s) (dbcon s)
    (total_records s) (parent_bibtex s) (citeid s) (to_be_dumped s) (log s).

(** The theorem on that crawl: the header of [create_db], then
    [dump_papers], which flushes the citing record, moves to row 1 of
    level 2 and asks for the next listing. *)
Lemma C9_crawl_state_invariants_witness :
  let r := dump_papers listed_crawl in
  awaiting listed_crawl
  ∧ was_paused (fetch listed_crawl) = false
  ∧ r.1 = Returned ()
  ∧ crawl r.2 = MkCrawl 2 1 0 2 4 false
  ∧ header_ok (file (dbcon r.2))
  ∧ awaiting r.2.
Proof.
  cbv zeta.
  destruct (C9_crawl_state_invariants (λ _, 0%Q)) as (_ & _ & Hstep & _).
  assert (Hc0 : crawl listed_crawl = MkCrawl 1 0 0 1 4 false)
    by (vm_compute; reflexivity).
  assert (Ha : awaiting listed_crawl).
  { unfold awaiting. rewrite Hc0.
    assert (Hok : cursor_ok (MkCrawl 1 0 0 1 4 false)).
    { unfold cursor_ok. cbn [current_row level_limit current_level max_level
                             scrape_done].
      split; [lia|]. split; [lia|]. split; [discriminate|lia]. }
    split; [exact Hok|]. split; [reflexivity|].
    exists (MkCrawl 1 0 0 1 4 false).
    split; [|split; [exact Hok|reflexivity]].
    unfold persisted. repeat split; vm_compute; reflexivity. }
  assert (Hp : was_paused (fetch listed_crawl) = false) by (vm_compute; reflexivity).
  assert (Hr : (dump_papers listed_crawl).1 = Returned ()) by (vm_compute; reflexivity).
  assert (Hc : crawl (dump_papers listed_crawl).2 = MkCrawl 2 1 0 2 4 false)
    by (vm_compute; reflexivity).
  destruct (Hstep listed_crawl Ha Hp) as (H1 & _ & H3).
  split; [exact Ha|]. split; [exact Hp|]. split; [exact Hr|].
  split; [exact Hc|]. split; [exact H1|].
  apply H3; [exact Hr|]. rewrite Hc. reflexivity.
Defined.

End CrawlExample.
